(** * A shallow embedding of pyoxidizer's resource packager

    Models [src/pyoxidizer/src/pyrepackager/repackage.rs]: the blob
    serializer [write_blob_entries], the config.c generator [make_config_c],
    the packaging-rule resolver [resolve_python_packaging], the staging
    reducer [resolve_python_resources] and its helpers. *)

From Stdlib Require Import ZArith List String Ascii Bool Lia.
From Stdlib Require Import Strings.Byte Sorting.Sorted.
From Stdlib Require Structures.OrderedTypeEx.
Import ListNotations.
Open Scope string_scope.
Open Scope list_scope.
Open Scope Z_scope.

(* ------------------------------------------------------------------ *)
(** ** Bytes and little-endian integers *)

(** A byte from the low 8 bits of an integer. *)
Definition byte_of_Z (z : Z) : byte :=
  match Byte.of_N (Z.to_N (Z.land z 255)) with
  | Some b => b
  | None => x00
  end.

(** Rust's [n as u32]: wrap-around to 32 bits. *)
Definition as_u32 (n : Z) : Z := n mod 2 ^ 32.

(** [WriteBytesExt::write_u32::<LittleEndian>] bytes of a u32 value. *)
Definition u32_le (n : Z) : list byte :=
  [byte_of_Z n; byte_of_Z (Z.shiftr n 8); byte_of_Z (Z.shiftr n 16);
   byte_of_Z (Z.shiftr n 24)].

(** [str::as_bytes]. *)
Definition as_bytes (s : string) : list byte := list_byte_of_string s.

(* ------------------------------------------------------------------ *)
(** ** I/O results and the [Write] trait *)

Inductive io_error := IoError (msg : string).

Inductive io_result (A : Type) :=
| Ok (a : A)
| Err (e : io_error).
Arguments Ok {A} a.
Arguments Err {A} e.

Definition io_bind {A B} (m : io_result A) (k : A -> io_result B) : io_result B :=
  match m with
  | Ok a => k a
  | Err e => Err e
  end.

Notation "x <- m ;; k" := (io_bind m (fun x => k))
  (at level 61, m at next level, right associativity).

(** The [std::io::Write] interface: [write_all] consumes the writer and
    hands back its new state. *)
Class Write (W : Type) := write_all : W -> list byte -> io_result W.

(** [impl Write for Vec<u8>]: appends, never fails. *)
#[global] Instance write_vec : Write (list byte) :=
  fun buf bs => Ok (buf ++ bs).

Definition write_u32_le {W} `{Write W} (dest : W) (n : Z) : io_result W :=
  write_all dest (u32_le n).

(** A [for] loop whose body uses [?]. *)
Fixpoint for_each_io {W A} (dest : W) (xs : list A) (body : W -> A -> io_result W)
  : io_result W :=
  match xs with
  | [] => Ok dest
  | x :: r => d <- body dest x ;; for_each_io d r body
  end.

(* ------------------------------------------------------------------ *)
(** ** Blob entries and [write_blob_entries] *)

Record BlobEntry := mkBlobEntry { name : string; data : list byte }.

Definition BlobEntries := list BlobEntry.

(** [write_blob_entries]: entry count, index of (name length, data length)
    pairs, all names, all data. Lengths are cast with [as u32]. *)
Definition write_blob_entries {W} `{Write W} (dest : W) (entries : list BlobEntry)
  : io_result W :=
  d <- write_u32_le dest (as_u32 (Z.of_nat (List.length entries))) ;;
  d <- for_each_io d entries (fun d entry =>
         let name_bytes := as_bytes (name entry) in
         d <- write_u32_le d (as_u32 (Z.of_nat (List.length name_bytes))) ;;
         write_u32_le d (as_u32 (Z.of_nat (List.length (data entry))))) ;;
  d <- for_each_io d entries (fun d entry =>
         let name_bytes := as_bytes (name entry) in
         write_all d name_bytes) ;;
  d <- for_each_io d entries (fun d entry => write_all d (data entry)) ;;
  Ok d.

(** The layout of §6 of the spec, written from its words: the count, then
    the index, then the names, then the data, each integer as a
    little-endian u32. *)
Definition blob_layout (entries : list BlobEntry) : list byte :=
  u32_le (Z.of_nat (List.length entries))
  ++ List.concat (map (fun e => u32_le (Z.of_nat (List.length (as_bytes (name e))))
                           ++ u32_le (Z.of_nat (List.length (data e)))) entries)
  ++ List.concat (map (fun e => as_bytes (name e)) entries)
  ++ List.concat (map data entries).

(** The condition the spec rejects with [TooLarge] / [FormatError]: an
    entry whose name or data length does not fit a u32. *)
Definition entry_too_large (e : BlobEntry) : Prop :=
  2 ^ 32 <= Z.of_nat (List.length (as_bytes (name e)))
  \/ 2 ^ 32 <= Z.of_nat (List.length (data e)).

(* ------------------------------------------------------------------ *)
(** ** [BTreeMap<String, V>] and [BTreeSet<String>]

    A B-tree map iterates in ascending key order; it is modelled by the
    list of its entries in that order. *)

Definition str_lt (a b : string) : Prop := String.ltb a b = true.

Module BTreeMap.
Definition t (V : Type) := list (string * V).

Definition empty {V} : t V := [].

Fixpoint insert {V} (k : string) (v : V) (m : t V) : t V :=
  match m with
  | [] => [(k, v)]
  | (k', v') :: r =>
      match String.compare k k' with
      | Lt => (k, v) :: m
      | Eq => (k, v) :: r
      | Gt => (k', v') :: insert k v r
      end
  end.

Definition remove {V} (k : string) (m : t V) : t V :=
  filter (fun kv => negb (String.eqb (fst kv) k)) m.

Fixpoint get {V} (k : string) (m : t V) : option V :=
  match m with
  | [] => None
  | (k', v') :: r => if String.eqb k k' then Some v' else get k r
  end.

Definition contains_key {V} (k : string) (m : t V) : bool :=
  match get k m with Some _ => true | None => false end.

Definition keys {V} (m : t V) : list string := map fst m.
Definition values {V} (m : t V) : list V := map snd m.

(** The B-tree invariant: keys strictly ascending. *)
Definition wf {V} (m : t V) : Prop := StronglySorted str_lt (keys m).
End BTreeMap.

Module BTreeSet.
Definition t := list string.

Definition empty : t := [].

Fixpoint insert (k : string) (s : t) : t :=
  match s with
  | [] => [k]
  | k' :: r =>
      match String.compare k k' with
      | Lt => k :: s
      | Eq => s
      | Gt => k' :: insert k r
      end
  end.

Definition contains (s : t) (k : string) : bool := existsb (String.eqb k) s.

Definition extend (s : t) (ks : list string) : t := fold_left (fun s k => insert k s) ks s.
End BTreeSet.

(* ------------------------------------------------------------------ *)
(** ** Extension modules and [make_config_c] *)

(** The fields of [dist::ExtensionModule] the packager reads. *)
Record ExtensionModule := mkExtensionModule {
  module : string;
  init_fn : option string;
  builtin_default : bool;
  required : bool;
  variant : string;
  links : list string;
}.

Infix "+++" := String.append (at level 60, right associativity).

Definition dq : string := String (ascii_of_nat 34) EmptyString.
Definition nl : string := String (ascii_of_nat 10) EmptyString.

(** [lines.join("\n")]. *)
Definition join_lines (lines : list string) : string := String.concat nl lines.

(** [make_config_c]. *)
Definition make_config_c (extension_modules : BTreeMap.t ExtensionModule) : string :=
  let lines := ["#include " +++ dq +++ "Python.h" +++ dq] in
  let lines := lines ++ List.concat (map (fun em =>
                 match init_fn em with
                 | Some init_fn =>
                     if String.eqb init_fn "NULL" then []
                     else ["extern PyObject* " +++ init_fn +++ "(void);"]
                 | None => []
                 end) (BTreeMap.values extension_modules)) in
  let lines := lines ++ ["struct _inittab _PyImport_Inittab[] = {"] in
  let lines := lines ++ List.concat (map (fun em =>
                 match init_fn em with
                 | Some init_fn =>
                     if String.eqb init_fn "NULL" then []
                     else ["{" +++ dq +++ module em +++ dq +++ ", " +++ init_fn +++ "},"]
                 | None => []
                 end) (BTreeMap.values extension_modules)) in
  let lines := lines ++ ["{0, 0}"; "};"] in
  join_lines lines.

(** The table of §4.7, from the spec: one (name, module, init function)
    row per staged extension whose init function is present and not
    ["NULL"], in map order. *)
Definition inittab_rows (m : BTreeMap.t ExtensionModule) : list (string * string * string) :=
  flat_map (fun '(k, em) =>
              match init_fn em with
              | Some f => if String.eqb f "NULL" then [] else [(k, module em, f)]
              | None => []
              end) m.

Definition config_c_of_rows (rows : list (string * string * string)) : string :=
  join_lines
    (["#include " +++ dq +++ "Python.h" +++ dq]
     ++ map (fun '(_, _, f) => "extern PyObject* " +++ f +++ "(void);") rows
     ++ ["struct _inittab _PyImport_Inittab[] = {"]
     ++ map (fun '(_, md, f) => "{" +++ dq +++ md +++ dq +++ ", " +++ f +++ "},") rows
     ++ ["{0, 0}"; "};"]).

(** The staging-map key of a table row. *)
Definition row_key (r : string * string * string) : string :=
  let '(k, _, _) := r in k.

(* ------------------------------------------------------------------ *)
(** ** Paths, rules, resources and the distribution *)

(** A [PathBuf] as its list of components; [push] appends one. *)
Definition PathBuf := list string.
Definition path_from (s : string) : PathBuf := [s].
Definition path_push (p : PathBuf) (c : string) : PathBuf := p ++ [c].
Definition path_display (p : PathBuf) : string := String.concat "/" p.

(** Rust's [n as i32] on the configured optimization level. *)
Definition as_i32 (n : Z) : Z := (n + 2 ^ 31) mod 2 ^ 32 - 2 ^ 31.

Module PythonPackaging.
(** [config::PythonPackaging]. *)
Inductive PythonPackaging :=
| StdlibExtensionsPolicy (policy : string)
| StdlibExtensionsExplicitIncludes (includes : list string)
| StdlibExtensionsExplicitExcludes (excludes : list string)
| StdlibExtensionVariant (extension variant : string)
| Stdlib (optimize_level : Z) (exclude_test_modules include_source : bool)
| Virtualenv (path : string) (optimize_level : Z) (excludes : list string)
             (include_source : bool)
| PackageRoot (path : string) (packages : list string) (optimize_level : Z)
              (excludes : list string) (include_source : bool)
| PipInstallSimple (package : string) (optimize_level : Z) (include_source : bool)
| FilterFileInclude (path : string)
| FilterFilesInclude (glob : string).
End PythonPackaging.

Module PythonResource.
(** [PythonResource]. *)
Inductive PythonResource :=
| ExtensionModule (name : string) (module : ExtensionModule)
| ModuleSource (name : string) (source : list byte)
| ModuleBytecode (name : string) (source : list byte) (optimize_level : Z)
| Resource (name : string) (data : list byte).
End PythonResource.

Inductive ResourceAction := Add | Remove.

Record PythonResourceEntry := mkPythonResourceEntry {
  action : ResourceAction;
  resource : PythonResource.PythonResource;
}.

Module Dist.
(** The fields of [dist::PythonDistributionInfo] the packager reads. *)
Record PythonDistributionInfo := mkPythonDistributionInfo {
  os : string;
  version : string;
  python_exe : string;
  extension_modules : BTreeMap.t (list ExtensionModule);
  py_modules : BTreeMap.t PathBuf;
}.
End Dist.

Module FsScan.
(** [fsscan::PythonResourceType] and the items [find_python_resources]
    yields. *)
Inductive PythonResourceType := Source | Bytecode | Resource | Other.

Record PythonFileResource := mkPythonFileResource {
  flavor : PythonResourceType;
  name : string;
  path : PathBuf;
}.
End FsScan.

Definition STDLIB_TEST_PACKAGES : list string :=
  ["bsddb.test"; "ctypes.test"; "distutils.tests"; "email.test";
   "idlelib.idle_test"; "json.tests"; "lib-tk.test"; "lib2to3.tests";
   "sqlite3.test"; "test"; "tkinter.test"; "unittest.test"].

(** [OS_IGNORE_EXTENSIONS], selected by [cfg!(target_os = ...)]. *)
Definition OS_IGNORE_EXTENSIONS (target_os : string) : list string :=
  if String.eqb target_os "linux" then ["_crypt"; "nis"]
  else if String.eqb target_os "macos" then ["_curses"; "_curses_panel"; "readline"]
  else [].

(** [is_stdlib_test_package]: the loop over [STDLIB_TEST_PACKAGES]. *)
Fixpoint is_stdlib_test_package_in (packages : list string) (name : string) : bool :=
  match packages with
  | [] => false
  | package :: r =>
      let prefix := package +++ "." in
      if String.prefix prefix name then true else is_stdlib_test_package_in r name
  end.

Definition is_stdlib_test_package (name : string) : bool :=
  is_stdlib_test_package_in STDLIB_TEST_PACKAGES name.

(** The exclude / package test of the Virtualenv and PackageRoot arms:
    [&resource.name == exclude || resource.name.starts_with(&prefix)]. *)
Definition prefix_match (pattern n : string) : bool :=
  let prefix := pattern +++ "." in
  String.eqb n pattern || String.prefix prefix n.

(** [let mut relevant = init; for exclude in excludes { if .. { relevant = v } }] *)
Definition scan_flag (init v : bool) (patterns : list string) (n : string) : bool :=
  fold_left (fun relevant p => if prefix_match p n then v else relevant) patterns init.

(** Relevance of a scanned module in the Virtualenv arm. *)
Definition virtualenv_relevant (excludes : list string) (n : string) : bool :=
  scan_flag true false excludes n.

(** Relevance of a scanned module in the PackageRoot arm. *)
Definition package_root_relevant (packages excludes : list string) (n : string) : bool :=
  let relevant := scan_flag false true packages n in
  fold_left (fun relevant p => if prefix_match p n then false else relevant)
            excludes relevant.

(** [&s[0..3]]: panics when 3 is past the end or not a char boundary. *)
Definition is_char_boundary (s : string) (i : nat) : bool :=
  match String.get i s with
  | None => Nat.eqb i (String.length s)
  | Some c => let b := nat_of_ascii c in negb (Nat.leb 128 b && Nat.ltb b 192)
  end.

Definition str_slice_0_3 (s : string) : option string :=
  if Nat.ltb (String.length s) 3 then None
  else if is_char_boundary s 3 then Some (substring 0 3 s) else None.

(** The [ModuleSource] (when [include_source]) and [ModuleBytecode]
    entries pushed for one module. *)
Definition module_entries (n : string) (source : list byte) (include_source : bool)
           (optimize_level : Z) : list PythonResourceEntry :=
  (if include_source
   then [mkPythonResourceEntry Add (PythonResource.ModuleSource n source)]
   else [])
  ++ [mkPythonResourceEntry Add
        (PythonResource.ModuleBytecode n source (as_i32 optimize_level))].

(** The module or resource name an entry is about. *)
Definition entry_name (e : PythonResourceEntry) : string :=
  match resource e with
  | PythonResource.ExtensionModule n _ => n
  | PythonResource.ModuleSource n _ => n
  | PythonResource.ModuleBytecode n _ _ => n
  | PythonResource.Resource n _ => n
  end.

(** The binding of an [Option] computation whose [None] is a panic. *)
Definition obind {A B} (m : option A) (k : A -> option B) : option B :=
  match m with Some a => k a | None => None end.

Notation "x <-? m ;; k" := (obind m (fun x => k))
  (at level 61, m at next level, right associativity).

(** A [for] loop that pushes onto [res] and may panic. *)
Fixpoint for_push {A} (xs : list A) (body : A -> option (list PythonResourceEntry))
  : option (list PythonResourceEntry) :=
  match xs with
  | [] => Some []
  | x :: r => es <-? body x ;; rest <-? for_push r body ;; Some (es ++ rest)
  end.

(* ------------------------------------------------------------------ *)
(** ** [read_resource_names_file] and [filter_btreemap] *)

(** [BufRead::read_line] chunks: each line's bytes and whether a ['\n']
    ended it; an empty read at end of file stops. *)
Fixpoint split_lines (cur : list byte) (bs : list byte) : list (list byte * bool) :=
  match bs with
  | [] => match cur with [] => [] | _ => [(rev cur, false)] end
  | b :: r =>
      if Byte.eqb b x0a then (rev cur, true) :: split_lines [] r
      else split_lines (b :: cur) r
  end.

(** [BufRead::lines] strips the ['\n'] and then one ['\r'] before it. *)
Definition strip_line_end (chunk : list byte * bool) : list byte :=
  let '(bs, terminated) := chunk in
  if terminated then
    match rev bs with
    | b :: r => if Byte.eqb b x0d then rev r else bs
    | [] => bs
    end
  else bs.

Section ReadNames.
(** UTF-8 validation done by [read_line] on each line. *)
Variable is_utf8 : list byte -> bool.

(** [BufReader::new(fh).lines()]. *)
Definition buf_lines (content : list byte) : list (io_result string) :=
  map (fun chunk =>
         if is_utf8 (fst chunk)
         then Ok (string_of_list_byte (strip_line_end chunk))
         else Err (IoError "stream did not contain valid UTF-8"))
      (split_lines [] content).

(** The loop of [read_resource_names_file] over the lines. *)
Fixpoint insert_names (res : BTreeSet.t) (lines : list (io_result string))
  : io_result BTreeSet.t :=
  match lines with
  | [] => Ok res
  | line :: r =>
      line <- line ;;
      if String.prefix "#" line || String.eqb line "" then insert_names res r
      else insert_names (BTreeSet.insert line res) r
  end.

(** [read_resource_names_file], given what [File::open] yields. *)
Definition read_resource_names_file (file : option (list byte)) : io_result BTreeSet.t :=
  match file with
  | None => Err (IoError "No such file or directory")
  | Some content => insert_names BTreeSet.empty (buf_lines content)
  end.
End ReadNames.

(** The lines the spec keeps in a whitelist file: not empty, first
    character not ['#']. *)
Definition first_char_is_hash (line : string) : bool :=
  match line with
  | String c _ => Ascii.eqb c "#"%char
  | EmptyString => false
  end.

Definition whitelist_line (line : string) : bool :=
  negb (String.eqb line "") && negb (first_char_is_hash line).

(** [filter_btreemap]: collect the keys, then remove each key the
    whitelist does not contain. *)
Definition filter_btreemap {V} (m : BTreeMap.t V) (f : BTreeSet.t) : BTreeMap.t V :=
  fold_left (fun m key => if BTreeSet.contains f key then m else BTreeMap.remove key m)
            (BTreeMap.keys m) m.

(* ------------------------------------------------------------------ *)
(** ** The staging state of [resolve_python_resources] *)

Module Staging.
Record Staging := mkStaging {
  extension_modules : BTreeMap.t ExtensionModule;
  sources : BTreeMap.t (list byte);
  bytecode_requests : BTreeMap.t (list byte * Z);
  resources : BTreeMap.t (list byte);
  read_files : list PathBuf;
}.

Definition empty : Staging := mkStaging [] [] [] [] [].
End Staging.

Import Staging.

(** One arm of the [match (entry.action, entry.resource)]. *)
Definition apply_entry (st : Staging) (entry : PythonResourceEntry) : Staging :=
  let '(mkStaging em src bc rs rf) := st in
  match action entry, resource entry with
  | Add, PythonResource.ExtensionModule n m =>
      mkStaging (BTreeMap.insert n m em) src bc rs rf
  | Remove, PythonResource.ExtensionModule n _ =>
      mkStaging (BTreeMap.remove n em) src bc rs rf
  | Add, PythonResource.ModuleSource n s =>
      mkStaging em (BTreeMap.insert n s src) bc rs rf
  | Remove, PythonResource.ModuleSource n _ =>
      mkStaging em (BTreeMap.remove n src) bc rs rf
  | Add, PythonResource.ModuleBytecode n s o =>
      mkStaging em src (BTreeMap.insert n (s, o) bc) rs rf
  | Remove, PythonResource.ModuleBytecode n _ _ =>
      mkStaging em src (BTreeMap.remove n bc) rs rf
  | Add, PythonResource.Resource n d =>
      mkStaging em src bc (BTreeMap.insert n d rs) rf
  | Remove, PythonResource.Resource n _ =>
      mkStaging em src bc (BTreeMap.remove n rs) rf
  end.

(** The four [filter_btreemap] calls of a filter rule. *)
Definition filter_staging (st : Staging) (include_names : BTreeSet.t) : Staging :=
  mkStaging (filter_btreemap (extension_modules st) include_names)
            (filter_btreemap (sources st) include_names)
            (filter_btreemap (bytecode_requests st) include_names)
            (filter_btreemap (resources st) include_names)
            (read_files st).

(** The four staging maps, without [read_files]. *)
Definition staging_maps (st : Staging) :=
  (extension_modules st, sources st, bytecode_requests st, resources st).

Module PythonResources.
(** The record [resolve_python_resources] returns. *)
Record PythonResources := mkPythonResources {
  module_sources : BTreeMap.t (list byte);
  module_bytecodes : BTreeMap.t (list byte);
  all_modules : BTreeSet.t;
  resources : BTreeMap.t (list byte);
  extension_modules : BTreeMap.t ExtensionModule;
  read_files : list PathBuf;
}.
End PythonResources.

(* ------------------------------------------------------------------ *)
(** ** [resolve_python_packaging] and [resolve_python_resources]

    The file system, the child processes and the target are the
    environment of the resolver. A panic ([expect], [panic!], an index out
    of bounds) is [None]. *)

(** The environment of the resolver: the operations on the file system
    and the child processes it calls, and the build target. *)
Record Env (FS : Type) := mkEnv {
  (** [fsscan::find_python_resources]. *)
  find_python_resources : FS -> PathBuf -> list FsScan.PythonFileResource;
  (** [fs::read] / [File::open]. *)
  fs_read : FS -> PathBuf -> option (list byte);
  (** [dist.ensure_pip()]. *)
  ensure_pip : FS -> FS;
  (** [tempdir::TempDir::new(prefix)] and its drop. *)
  tempdir_new : FS -> string -> option (PathBuf * FS);
  tempdir_drop : FS -> PathBuf -> FS;
  (** [Command::new(exe).args(args).status()]: [None] when the process
      cannot be started, otherwise its exit code. *)
  command_status : FS -> string -> list string -> option (Z * FS);
  (** [glob::glob(pattern)]: [None] for a bad pattern, each match an
      [Ok(path)] or an [Err]. *)
  findglob : FS -> string -> option (list (option PathBuf));
  (** UTF-8 validation of a line read by [BufRead::lines]. *)
  is_utf8 : list byte -> bool;
  (** [BytecodeCompiler::compile(source, name, optimize_level)]. *)
  compile : list byte -> string -> Z -> option (list byte);
  (** [cfg!(target_os)]. *)
  target_os : string;
}.
Arguments find_python_resources {FS} e.
Arguments fs_read {FS} e.
Arguments ensure_pip {FS} e.
Arguments tempdir_new {FS} e.
Arguments tempdir_drop {FS} e.
Arguments command_status {FS} e.
Arguments findglob {FS} e.
Arguments is_utf8 {FS} e.
Arguments compile {FS} e.
Arguments target_os {FS} e.

Section Resolver.
Context {FS : Type} (env : Env FS).

(** The common loop of the Virtualenv, PackageRoot and PipInstallSimple
    arms over [find_python_resources]. *)
Definition scan_sources (fs : FS) (root : PathBuf) (relevant : string -> bool)
           (include_source : bool) (optimize_level : Z)
  : option (list PythonResourceEntry) :=
  for_push (find_python_resources env fs root) (fun resource =>
    match FsScan.flavor resource with
    | FsScan.Source =>
        if relevant (FsScan.name resource) then
          source <-? fs_read env fs (FsScan.path resource) ;;
          Some (module_entries (FsScan.name resource) source include_source
                               optimize_level)
        else Some []
    | _ => Some []
    end).

Definition add_ext (n : string) (em : ExtensionModule) : PythonResourceEntry :=
  mkPythonResourceEntry Add (PythonResource.ExtensionModule n em).

(** The [no-libraries] policy: the first variant without links. *)
Fixpoint first_without_links (variants : list ExtensionModule) : option ExtensionModule :=
  match variants with
  | [] => None
  | em :: r => match links em with [] => Some em | _ => first_without_links r end
  end.

Definition resolve_python_packaging (fs : FS) (package : PythonPackaging.PythonPackaging)
           (dist : Dist.PythonDistributionInfo)
  : option (list PythonResourceEntry * FS) :=
  match package with
  | PythonPackaging.StdlibExtensionsPolicy policy =>
      res <-? for_push (Dist.extension_modules dist) (fun '(n, variants) =>
        if String.eqb policy "minimal" then
          em <-? nth_error variants 0 ;;
          Some (if builtin_default em || required em then [add_ext n em] else [])
        else if String.eqb policy "all" then
          em <-? nth_error variants 0 ;; Some [add_ext n em]
        else if String.eqb policy "no-libraries" then
          Some (match first_without_links variants with
                | Some em => [add_ext n em]
                | None => []
                end)
        else None) ;;
      Some (res, fs)
  | PythonPackaging.StdlibExtensionsExplicitIncludes includes =>
      res <-? for_push includes (fun n =>
        match BTreeMap.get n (Dist.extension_modules dist) with
        | Some modules => em <-? nth_error modules 0 ;; Some [add_ext n em]
        | None => Some []
        end) ;;
      Some (res, fs)
  | PythonPackaging.StdlibExtensionsExplicitExcludes excludes =>
      res <-? for_push (Dist.extension_modules dist) (fun '(n, modules) =>
        if existsb (String.eqb n) excludes then Some []
        else em <-? nth_error modules 0 ;; Some [add_ext n em]) ;;
      Some (res, fs)
  | PythonPackaging.StdlibExtensionVariant extension v =>
      variants <-? BTreeMap.get extension (Dist.extension_modules dist) ;;
      let res := flat_map (fun em => if String.eqb (variant em) v
                                     then [add_ext extension em] else [])
                          variants in
      match res with
      | [] => None
      | _ => Some (res, fs)
      end
  | PythonPackaging.Stdlib optimize_level exclude_test_modules include_source =>
      res <-? for_push (Dist.py_modules dist) (fun '(n, fs_path) =>
        if is_stdlib_test_package n && exclude_test_modules then Some []
        else source <-? fs_read env fs fs_path ;;
             Some (module_entries n source include_source optimize_level)) ;;
      Some (res, fs)
  | PythonPackaging.Virtualenv path optimize_level excludes include_source =>
      let packages_path := path_from path in
      let packages_path := if String.eqb (Dist.os dist) "windows"
                           then path_push packages_path "Lib"
                           else path_push packages_path "lib" in
      ver <-? str_slice_0_3 (Dist.version dist) ;;
      let packages_path := path_push packages_path ("python" +++ ver) in
      let packages_path := path_push packages_path "site-packages" in
      res <-? scan_sources fs packages_path (virtualenv_relevant excludes)
                           include_source optimize_level ;;
      Some (res, fs)
  | PythonPackaging.PackageRoot path packages optimize_level excludes include_source =>
      res <-? scan_sources fs (path_from path) (package_root_relevant packages excludes)
                           include_source optimize_level ;;
      Some (res, fs)
  | PythonPackaging.PipInstallSimple package optimize_level include_source =>
      let fs := ensure_pip env fs in
      td <-? tempdir_new env fs "pyoxidizer-pip-install" ;;
      let '(temp_dir_path, fs) := td in
      let temp_dir_s := path_display temp_dir_path in
      st <-? command_status env fs (Dist.python_exe dist)
               ["-m"; "pip"; "--disable-pip-version-check"; "install"; "--target";
                temp_dir_s; package] ;;
      let '(_status, fs) := st in
      res <-? scan_sources fs temp_dir_path (fun _ => true) include_source
                           optimize_level ;;
      Some (res, tempdir_drop env fs temp_dir_path)
  | PythonPackaging.FilterFileInclude _ => Some ([], fs)
  | PythonPackaging.FilterFilesInclude _ => Some ([], fs)
  end.

(** [read_resource_names_file(path).expect(..)]. *)
Definition read_names_or_panic (fs : FS) (path : PathBuf) : option BTreeSet.t :=
  match read_resource_names_file (is_utf8 env) (fs_read env fs path) with
  | Ok s => Some s
  | Err _ => None
  end.

(** The loop of the FilterFilesInclude arm over the glob matches. *)
Fixpoint collect_glob (fs : FS) (entries : list (option PathBuf))
         (include_names : BTreeSet.t) (read_files : list PathBuf)
  : option (BTreeSet.t * list PathBuf) :=
  match entries with
  | [] => Some (include_names, read_files)
  | Some path :: r =>
      new_names <-? read_names_or_panic fs path ;;
      collect_glob fs r (BTreeSet.extend include_names new_names) (read_files ++ [path])
  | None :: _ => None
  end.

(** The [if let PythonPackaging::FilterFileInclude ..] /
    [else if let PythonPackaging::FilterFilesInclude ..] step. *)
Definition apply_filter_rule (fs : FS) (packaging : PythonPackaging.PythonPackaging)
           (st : Staging) : option Staging :=
  match packaging with
  | PythonPackaging.FilterFileInclude path =>
      let path := path_from path in
      include_names <-? read_names_or_panic fs path ;;
      let st := filter_staging st include_names in
      Some (mkStaging (extension_modules st) (sources st) (bytecode_requests st)
                      (resources st) (read_files st ++ [path]))
  | PythonPackaging.FilterFilesInclude glob =>
      entries <-? findglob env fs glob ;;
      acc <-? collect_glob fs entries BTreeSet.empty (read_files st) ;;
      let '(include_names, rf) := acc in
      let st := mkStaging (extension_modules st) (sources st) (bytecode_requests st)
                          (resources st) rf in
      Some (filter_staging st include_names)
  | _ => Some st
  end.

(** One iteration of [for packaging in packages]. *)
Definition process_rule (dist : Dist.PythonDistributionInfo) (fs : FS)
           (packaging : PythonPackaging.PythonPackaging) (st : Staging)
  : option (Staging * FS) :=
  p <-? resolve_python_packaging fs packaging dist ;;
  let '(entries, fs) := p in
  let st := fold_left apply_entry entries st in
  st <-? apply_filter_rule fs packaging st ;;
  Some (st, fs).

Fixpoint process_rules (dist : Dist.PythonDistributionInfo) (fs : FS)
         (packages : list PythonPackaging.PythonPackaging) (st : Staging)
  : option Staging :=
  match packages with
  | [] => Some st
  | packaging :: r =>
      p <-? process_rule dist fs packaging st ;;
      let '(st, fs) := p in
      process_rules dist fs r st
  end.

(** "Add required extension modules": the loop over the distribution's
    extensions, with [&variants[0]]. *)
Fixpoint add_required (ext : BTreeMap.t (list ExtensionModule))
         (extension_modules : BTreeMap.t ExtensionModule)
  : option (BTreeMap.t ExtensionModule) :=
  match ext with
  | [] => Some extension_modules
  | (n, variants) :: r =>
      em <-? nth_error variants 0 ;;
      let extension_modules :=
        if (builtin_default em || required em)
           && negb (BTreeMap.contains_key n extension_modules)
        then BTreeMap.insert n em extension_modules
        else extension_modules in
      add_required r extension_modules
  end.

(** "Remove extension modules that have problems". *)
Definition remove_ignored (extension_modules : BTreeMap.t ExtensionModule)
  : BTreeMap.t ExtensionModule :=
  fold_left (fun m e => BTreeMap.remove e m) (OS_IGNORE_EXTENSIONS (target_os env))
            extension_modules.

(** The bytecode compilation loop. *)
Fixpoint compile_requests (bytecode_requests : BTreeMap.t (list byte * Z))
         (bytecodes : BTreeMap.t (list byte)) : option (BTreeMap.t (list byte)) :=
  match bytecode_requests with
  | [] => Some bytecodes
  | (n, (source, optimize_level)) :: r =>
      bytecode <-? compile env source n optimize_level ;;
      compile_requests r (BTreeMap.insert n bytecode bytecodes)
  end.

Record Config := mkConfig { python_packaging : list PythonPackaging.PythonPackaging }.

Definition resolve_python_resources (fs : FS) (config : Config)
           (dist : Dist.PythonDistributionInfo) : option PythonResources.PythonResources :=
  st <-? process_rules dist fs (python_packaging config) Staging.empty ;;
  em <-? add_required (Dist.extension_modules dist) (extension_modules st) ;;
  let em := remove_ignored em in
  bytecodes <-? compile_requests (bytecode_requests st) BTreeMap.empty ;;
  let all_modules := BTreeSet.extend BTreeSet.empty (BTreeMap.keys (sources st)) in
  let all_modules := BTreeSet.extend all_modules (BTreeMap.keys bytecodes) in
  Some (PythonResources.mkPythonResources (sources st) bytecodes all_modules
                                          (resources st) em (read_files st)).

End Resolver.

(* ------------------------------------------------------------------ *)
(** ** A concrete environment and distribution

    Used to evaluate the resolver on small inputs: every scanned directory
    holds one source module named after the directory, every file reads as
    the single byte ['*'], and [pip] exits with [pip_exit]. *)

Definition test_env (pip_exit : Z) : Env unit := {|
  find_python_resources := fun _ root =>
    [FsScan.mkPythonFileResource FsScan.Source (path_display root)
                                 (path_push root "__init__.py")];
  fs_read := fun _ _ => Some [x2a];
  ensure_pip := fun fs => fs;
  tempdir_new := fun fs prefix => Some (["/tmp"; prefix], fs);
  tempdir_drop := fun fs _ => fs;
  command_status := fun fs _ _ => Some (pip_exit, fs);
  findglob := fun _ _ => Some [];
  is_utf8 := fun _ => true;
  compile := fun source _ _ => Some source;
  target_os := "linux";
|}.

Definition ext (m : string) (bd req : bool) : ExtensionModule :=
  mkExtensionModule m (Some ("PyInit_" +++ m)) bd req "default" [].

Definition test_dist (version : string) : Dist.PythonDistributionInfo :=
  Dist.mkPythonDistributionInfo "linux" version "python3"
    [("_crypt", [ext "_crypt" false true]); ("_io", [ext "_io" true false]);
     ("readline", [ext "readline" false false]); ("zlib", [ext "zlib" false true])]
    [("json", ["lib"; "json"; "__init__.py"]); ("test", ["lib"; "test"; "__init__.py"]);
     ("test.test_os", ["lib"; "test"; "test_os.py"])].

(* ------------------------------------------------------------------ *)
(** ** [PythonResources::sources_blob], [bytecodes_blob] and [write_blobs] *)

(** [sources_blob]: one entry per staged source, in map order. *)
Definition sources_blob (r : PythonResources.PythonResources) : BlobEntries :=
  map (fun '(n, source) => mkBlobEntry n source) (PythonResources.module_sources r).

(** [bytecodes_blob]: one entry per compiled module, in map order. *)
Definition bytecodes_blob (r : PythonResources.PythonResources) : BlobEntries :=
  map (fun '(n, bytecode) => mkBlobEntry n bytecode) (PythonResources.module_bytecodes r).

(** The files on disk: the content of each path, if it exists. *)
Definition Store := PathBuf -> option (list byte).

Definition path_eqb (p q : PathBuf) : bool :=
  if list_eq_dec string_dec p q then true else false.

Definition store_set (st : Store) (p : PathBuf) (content : list byte) : Store :=
  fun q => if path_eqb q p then Some content else st q.

(** An open [fs::File]: the file system it writes to and its path. *)
Record File := mkFile { file_store : Store; file_path : PathBuf }.

(** [.unwrap()] / [.expect(..)] on an I/O result. *)
Definition io_expect {A} (r : io_result A) : option A :=
  match r with
  | Ok a => Some a
  | Err _ => None
  end.

(** [str::split(c)]: the pieces between the occurrences of [c]; the
    empty string gives one empty piece. *)
Fixpoint split_char (c : ascii) (s : string) : list string :=
  match s with
  | EmptyString => [EmptyString]
  | String x r =>
      let pieces := split_char c r in
      if Ascii.eqb x c then EmptyString :: pieces
      else match pieces with
           | w :: ws => String x w :: ws
           | [] => [String x EmptyString]
           end
  end.

Section Files.
(** [fs::File::create] and a [write] system call on a path. *)
Variable file_create : Store -> PathBuf -> io_result Store.
Variable file_write : Store -> PathBuf -> list byte -> io_result Store.

(** [impl Write for File] (and for [&File]). *)
#[local] Instance write_file : Write File :=
  fun fh bs => st <- file_write (file_store fh) (file_path fh) bs ;;
               Ok (mkFile st (file_path fh)).

(** [fs::File::create(path).unwrap()]. *)
Definition create_or_panic (st : Store) (p : PathBuf) : option File :=
  st <-? io_expect (file_create st p) ;; Some (mkFile st p).

(** The loop of [write_blobs] over [all_modules]. *)
Fixpoint write_module_names (fh : File) (names : list string) : option File :=
  match names with
  | [] => Some fh
  | n :: r =>
      fh <-? io_expect (write_all fh (as_bytes n)) ;;
      fh <-? io_expect (write_all fh [x0a]) ;;
      write_module_names fh r
  end.

(** [PythonResources::write_blobs]. *)
Definition write_blobs (st : Store) (r : PythonResources.PythonResources)
           (module_names_path modules_path bytecodes_path : PathBuf) : option Store :=
  fh <-? create_or_panic st module_names_path ;;
  fh <-? write_module_names fh (PythonResources.all_modules r) ;;
  fh <-? create_or_panic (file_store fh) modules_path ;;
  fh <-? io_expect (write_blob_entries fh (sources_blob r)) ;;
  fh <-? create_or_panic (file_store fh) bytecodes_path ;;
  fh <-? io_expect (write_blob_entries fh (bytecodes_blob r)) ;;
  Some (file_store fh).

(** [write_data_rs]: create the file, write the [use] line, then the
    function wrapping the indented config; [write_fmt] writes the three
    pieces of its format string in turn. *)
Definition write_data_rs_file (st : Store) (path : PathBuf) (python_config_rs : string)
  : option Store :=
  fh <-? create_or_panic st path ;;
  fh <-? io_expect (write_all fh (as_bytes ("use super::config::{PythonConfig, PythonRunMode};"
                                           +++ nl +++ nl))) ;;
  let indented := String.concat nl (map (fun line => "    " +++ line)
                                         (split_char "010"%char python_config_rs)) in
  fh <-? io_expect (write_all fh (as_bytes ("pub fn default_python_config() -> PythonConfig {"
                                           +++ nl))) ;;
  fh <-? io_expect (write_all fh (as_bytes indented)) ;;
  fh <-? io_expect (write_all fh (as_bytes (nl +++ "}" +++ nl))) ;;
  Some (file_store fh).
End Files.

(** A file system whose [create] truncates or creates the file and whose
    [write] appends to an existing file. *)
Definition posix_create (st : Store) (p : PathBuf) : io_result Store :=
  Ok (store_set st p []).

Definition posix_write (st : Store) (p : PathBuf) (bs : list byte) : io_result Store :=
  match st p with
  | Some content => Ok (store_set st p (content ++ bs))
  | None => Err (IoError "Bad file descriptor")
  end.

(* ------------------------------------------------------------------ *)
(** ** [derive_importlib] *)

(** [ImportlibData]. *)
Record ImportlibData := mkImportlibData {
  bootstrap_source : list byte;
  bootstrap_bytecode : list byte;
  bootstrap_external_source : list byte;
  bootstrap_external_bytecode : list byte;
}.

Section Importlib.
Context {FS : Type} (env : Env FS).
(** [PYTHON_IMPORTER]: the bytes of [memoryimporter.py]. *)
Variable PYTHON_IMPORTER : list byte.

(** The text appended to [importlib._bootstrap_external] before the
    memory importer. *)
Definition bootstrap_external_marker : string :=
  nl +++ "# END OF importlib/_bootstrap_external.py" +++ nl +++ nl.

(** [derive_importlib]; [dist.py_modules[..]] panics on a missing key. *)
Definition derive_importlib (fs : FS) (dist : Dist.PythonDistributionInfo)
  : option ImportlibData :=
  mod_bootstrap_path <-? BTreeMap.get "importlib._bootstrap" (Dist.py_modules dist) ;;
  mod_bootstrap_external_path <-?
    BTreeMap.get "importlib._bootstrap_external" (Dist.py_modules dist) ;;
  bootstrap_source <-? fs_read env fs mod_bootstrap_path ;;
  let module_name := "<frozen importlib._bootstrap>" in
  bootstrap_bytecode <-? compile env bootstrap_source module_name 0 ;;
  bootstrap_external_source <-? fs_read env fs mod_bootstrap_external_path ;;
  let bootstrap_external_source :=
    bootstrap_external_source ++ as_bytes bootstrap_external_marker in
  let bootstrap_external_source := bootstrap_external_source ++ PYTHON_IMPORTER in
  let module_name := "<frozen importlib._bootstrap_external>" in
  bootstrap_external_bytecode <-? compile env bootstrap_external_source module_name 0 ;;
  Some (mkImportlibData bootstrap_source bootstrap_bytecode bootstrap_external_source
                        bootstrap_external_bytecode).
End Importlib.

(* ------------------------------------------------------------------ *)
(** ** [link_libpython] *)

Module Link.
(** [dist::LibraryDepends]. *)
Record LibraryDepends := mkLibraryDepends {
  name : string;
  static_path : option PathBuf;
  dynamic_path : option PathBuf;
  framework : bool;
  system : bool;
}.
End Link.

(** The fields of [PythonDistributionInfo] only the linker reads. *)
Record LinkDist := mkLinkDist {
  includes : BTreeMap.t PathBuf;
  (** [objs_core: BTreeMap<PathBuf, PathBuf>], in its iteration order. *)
  objs_core : list (PathBuf * PathBuf);
  links_core : list Link.LibraryDepends;
  libraries : BTreeMap.t PathBuf;
}.

(** A [cc::Build] as configured before [compile]. *)
Record CcBuild := mkCcBuild {
  cc_out_dir : PathBuf;
  cc_host : string;
  cc_target : string;
  cc_opt_level : string;
  cc_files : list PathBuf;
  cc_objects : list PathBuf;
  cc_includes : list PathBuf;
  cc_defines : list (string * option string);
  cc_flags : list string;
  cc_cargo_metadata : bool;
}.

(** The file and compiler operations of [link_libpython]; each [None] is
    the panic of its [expect] / [unwrap] (or of [cc::Build::compile]). *)
Record LinkEnv (FS : Type) := mkLinkEnv {
  fs_write : FS -> PathBuf -> list byte -> option FS;
  create_dir_all : FS -> PathBuf -> option FS;
  fs_copy : FS -> PathBuf -> PathBuf -> option FS;
  cc_compile : FS -> CcBuild -> string -> option FS;
}.
Arguments fs_write {FS} l.
Arguments create_dir_all {FS} l.
Arguments fs_copy {FS} l.
Arguments cc_compile {FS} l.

(** [Path::parent]: [None] for the empty path and the root. *)
Definition path_parent (p : PathBuf) : option PathBuf :=
  match p with
  | [] => None
  | [c] => if String.eqb c "/" then None else Some []
  | _ => Some (removelast p)
  end.

(** [Path::join] of a relative path. *)
Definition path_join (p q : PathBuf) : PathBuf := p ++ q.

(** [Path::ends_with]: the last components are [child]. *)
Definition path_ends_with (p child : PathBuf) : bool :=
  Nat.leb (List.length child) (List.length p)
  && path_eqb (skipn (List.length p - List.length child) p) child.

(** [OS_IGNORE_LIBRARIES], selected by [cfg!(target_os = ...)]. *)
Definition OS_IGNORE_LIBRARIES (target_os : string) : list string :=
  if String.eqb target_os "linux" then ["dl"; "m"]
  else if String.eqb target_os "macos" then ["dl"; "m"]
  else [].

(** [LibpythonInfo]. *)
Record LibpythonInfo := mkLibpythonInfo {
  libpython_path : PathBuf;
  cargo_metadata : list string;
}.

Section Linker.
Context {FS : Type} (env : Env FS) (lenv : LinkEnv FS).
(** [em.object_paths] and [em.links] of a distribution extension. *)
Variable object_paths : ExtensionModule -> list PathBuf.
Variable em_links : ExtensionModule -> list Link.LibraryDepends.

(** The loop over [dist.includes]. *)
Fixpoint copy_includes (fs : FS) (temp_dir_path : PathBuf) (incs : BTreeMap.t PathBuf)
  : option FS :=
  match incs with
  | [] => Some fs
  | (n, fs_path) :: r =>
      let full := path_push temp_dir_path n in
      parent <-? path_parent full ;;
      fs <-? create_dir_all lenv fs parent ;;
      fs <-? fs_copy lenv fs fs_path full ;;
      copy_includes fs temp_dir_path r
  end.

(** The loop over [dist.objs_core], returning the objects added to the
    build. *)
Fixpoint copy_core_objects (fs : FS) (temp_dir_path : PathBuf)
         (objs : list (PathBuf * PathBuf)) (objects : list PathBuf)
  : option (FS * list PathBuf) :=
  match objs with
  | [] => Some (fs, objects)
  | (rel_path, fs_path) :: r =>
      if path_ends_with rel_path ["Modules"; "config.o"]
      then copy_core_objects fs temp_dir_path r objects
      else
        rel_parent <-? path_parent rel_path ;;
        let parent := path_join temp_dir_path rel_parent in
        fs <-? create_dir_all lenv fs parent ;;
        let full := path_join temp_dir_path rel_path in
        fs <-? fs_copy lenv fs fs_path full ;;
        copy_core_objects fs temp_dir_path r (objects ++ [full])
  end.

(** The sets [needed_libraries], [needed_frameworks] and
    [needed_system_libraries]. *)
Record Needed := mkNeeded {
  needed_libraries : BTreeSet.t;
  needed_frameworks : BTreeSet.t;
  needed_system_libraries : BTreeSet.t;
}.

(** One iteration of the loop over [dist.links_core]. *)
Definition core_link (nd : Needed) (entry : Link.LibraryDepends) : Needed :=
  if Link.framework entry then
    mkNeeded (needed_libraries nd) (BTreeSet.insert (Link.name entry) (needed_frameworks nd))
             (needed_system_libraries nd)
  else if Link.system entry then
    mkNeeded (needed_libraries nd) (needed_frameworks nd)
             (BTreeSet.insert (Link.name entry) (needed_system_libraries nd))
  else nd.

(** One iteration of the loop over [em.links]. *)
Definition extension_link (nd : Needed) (entry : Link.LibraryDepends) : Needed :=
  if Link.framework entry then
    mkNeeded (needed_libraries nd) (BTreeSet.insert (Link.name entry) (needed_frameworks nd))
             (needed_system_libraries nd)
  else if Link.system entry then
    mkNeeded (needed_libraries nd) (needed_frameworks nd)
             (BTreeSet.insert (Link.name entry) (needed_system_libraries nd))
  else match Link.static_path entry with
       | Some _ =>
           mkNeeded (BTreeSet.insert (Link.name entry) (needed_libraries nd))
                    (needed_frameworks nd) (needed_system_libraries nd)
       | None =>
           match Link.dynamic_path entry with
           | Some _ =>
               mkNeeded (BTreeSet.insert (Link.name entry) (needed_libraries nd))
                        (needed_frameworks nd) (needed_system_libraries nd)
           | None => nd
           end
       end.

(** The loop over the staged extension modules: the objects of each one
    that is not [builtin_default], and its libraries. *)
Definition extension_inputs (acc : list PathBuf * Needed) (entry : string * ExtensionModule)
  : list PathBuf * Needed :=
  let '(objects, nd) := acc in
  let '(_, em) := entry in
  if builtin_default em then acc
  else (objects ++ object_paths em, fold_left extension_link (em_links em) nd).

(** The loop over [needed_libraries]. *)
Fixpoint copy_libraries (fs : FS) (out_dir : PathBuf) (libraries_map : BTreeMap.t PathBuf)
         (libs : list string) (metadata : list string) : option (FS * list string) :=
  match libs with
  | [] => Some (fs, metadata)
  | library :: r =>
      if existsb (String.eqb library) (OS_IGNORE_LIBRARIES (target_os env))
      then copy_libraries fs out_dir libraries_map r metadata
      else
        fs_path <-? BTreeMap.get library libraries_map ;;
        let library_path := path_push out_dir ("lib" +++ library +++ ".a") in
        fs <-? fs_copy lenv fs fs_path library_path ;;
        copy_libraries fs out_dir libraries_map r
                       (metadata ++ ["cargo:rustc-link-lib=static=" +++ library])
  end.

(** The [cc::Build] that compiles config.c. *)
Definition config_build (out_dir : PathBuf) (host target opt_level : string)
           (config_c_path temp_dir_path : PathBuf) : CcBuild :=
  mkCcBuild out_dir host target opt_level [config_c_path] [] [temp_dir_path]
            [("NDEBUG", None); ("Py_BUILD_CORE", None)] ["-std=c99"] false.

(** The [cc::Build] of libpythonXY. *)
Definition libpython_build (out_dir : PathBuf) (host target opt_level : string)
           (objects : list PathBuf) : CcBuild :=
  mkCcBuild out_dir host target opt_level [] objects [] [] [] true.

(** [link_libpython]; the temporary directory is removed on return. *)
Definition link_libpython (fs : FS) (dist : LinkDist) (resources : PythonResources.PythonResources)
           (out_dir : PathBuf) (host target opt_level : string)
  : option (LibpythonInfo * FS) :=
  td <-? tempdir_new env fs "libpython" ;;
  let '(temp_dir_path, fs) := td in
  let extension_modules := PythonResources.extension_modules resources in
  let config_c_source := make_config_c extension_modules in
  let config_c_path := path_push out_dir "config.c" in
  fs <-? fs_write lenv fs config_c_path (as_bytes config_c_source) ;;
  fs <-? copy_includes fs temp_dir_path (includes dist) ;;
  fs <-? cc_compile lenv fs (config_build out_dir host target opt_level config_c_path
                                          temp_dir_path) "pyembeddedconfig" ;;
  let cargo_metadata := ["cargo:rustc-link-lib=static=pyembeddedconfig"] in
  p <-? copy_core_objects fs temp_dir_path (objs_core dist) [] ;;
  let '(fs, objects) := p in
  let nd := fold_left core_link (links_core dist) (mkNeeded [] [] []) in
  let '(objects, nd) := fold_left extension_inputs extension_modules (objects, nd) in
  p <-? copy_libraries fs out_dir (libraries dist) (needed_libraries nd) cargo_metadata ;;
  let '(fs, cargo_metadata) := p in
  let cargo_metadata := cargo_metadata ++ map (fun framework =>
                          "cargo:rustc-link-lib=framework=" +++ framework)
                          (needed_frameworks nd) in
  let cargo_metadata := cargo_metadata ++ map (fun lib => "cargo:rustc-link-lib=" +++ lib)
                          (needed_system_libraries nd) in
  fs <-? cc_compile lenv fs (libpython_build out_dir host target opt_level objects) "pythonXY" ;;
  Some (mkLibpythonInfo (path_push out_dir "libpythonXY.a") cargo_metadata,
        tempdir_drop env fs temp_dir_path).
End Linker.

(* ------------------------------------------------------------------ *)
(** ** [find_pyoxidizer_config_file] *)

(** [Path::ancestors]: the path, then its parents while there is one. *)
Fixpoint ancestors_from (fuel : nat) (p : PathBuf) : list PathBuf :=
  p :: match fuel, path_parent p with
       | S fuel, Some q => ancestors_from fuel q
       | _, _ => []
       end.

Definition ancestors (p : PathBuf) : list PathBuf := ancestors_from (List.length p) p.

Section FindConfig.
(** [Path::exists]. *)
Variable path_exists : PathBuf -> bool.

Fixpoint first_existing (dirs : list PathBuf) (basename : string) : option PathBuf :=
  match dirs with
  | [] => None
  | test_dir :: r =>
      let candidate := path_push test_dir basename in
      if path_exists candidate then Some candidate else first_existing r basename
  end.

(** [find_pyoxidizer_config_file]. *)
Definition find_pyoxidizer_config_file (start_dir : PathBuf) (target : string)
  : option PathBuf :=
  let basename := "pyoxidizer." +++ target +++ ".toml" in
  first_existing (ancestors start_dir) basename.
End FindConfig.

(* ------------------------------------------------------------------ *)
(** ** A concrete linker environment

    Every file and compiler operation succeeds; [zlib] links the static
    library [z] and [dl], the core links [pthread] and the framework
    [CoreFoundation]. *)

Definition test_link_env : LinkEnv unit :=
  mkLinkEnv unit (fun fs _ _ => Some fs) (fun fs _ => Some fs) (fun fs _ _ => Some fs)
            (fun fs _ _ => Some fs).

Definition test_object_paths (em : ExtensionModule) : list PathBuf :=
  [["obj"; module em +++ ".o"]].

Definition test_em_links (em : ExtensionModule) : list Link.LibraryDepends :=
  if String.eqb (module em) "zlib"
  then [Link.mkLibraryDepends "z" (Some ["lib"; "libz.a"]) None false false;
        Link.mkLibraryDepends "dl" None (Some ["lib"; "libdl.so"]) false false]
  else [].

Definition test_link_dist (libraries : BTreeMap.t PathBuf) : LinkDist :=
  mkLinkDist [("Python.h", ["inc"; "Python.h"])]
             [(["Modules"; "config.o"], ["d"; "config.o"]); (["Python"; "ceval.o"], ["d"; "ceval.o"])]
             [Link.mkLibraryDepends "pthread" None None false true;
              Link.mkLibraryDepends "CoreFoundation" None None true false]
             libraries.

Definition test_resources : PythonResources.PythonResources :=
  PythonResources.mkPythonResources [] [] [] []
    [("_io", ext "_io" true false); ("zlib", ext "zlib" false true)] [].

(* ------------------------------------------------------------------ *)
(** ** Predicates used by the statements *)


(** The read files a rule list adds when it has no glob rule: the path of
    each FilterFileInclude rule, in rule order. *)
Definition file_rule_path (p : PythonPackaging.PythonPackaging) : list PathBuf :=
  match p with
  | PythonPackaging.FilterFileInclude path => [path_from path]
  | _ => []
  end.

Definition not_glob_rule (p : PythonPackaging.PythonPackaging) : Prop :=
  match p with
  | PythonPackaging.FilterFilesInclude _ => False
  | _ => True
  end.

(** The shortest ancestor a path has: the root of an absolute path, else
    the empty path. *)
Definition ancestor_min (p : PathBuf) : nat :=
  match p with
  | c :: _ => if String.eqb c "/" then 1 else 0
  | [] => 0
  end.

(** The prefixes of a path, from the path itself down to its shortest
    ancestor. *)
Definition prefixes (p : PathBuf) : list PathBuf :=
  map (fun k => firstn k p) (rev (seq (ancestor_min p) (S (List.length p) - ancestor_min p))).

(** An open file at [p] holding [c], the rest of the store as in [st0]. *)
Definition open_at (st0 : Store) (p : PathBuf) (fh : File) (c : list byte) : Prop :=
  file_path fh = p /\ file_store fh p = Some c
  /\ forall q, q <> p -> file_store fh q = st0 q.

Definition no_char (c : ascii) (s : string) : Prop := ~ In c (list_ascii_of_string s).

Definition is_some {A} (o : option A) : bool := match o with Some _ => true | None => false end.

(* ------------------------------------------------------------------ *)
(** ** Facts about the blob writer *)

Lemma byte_of_Z_land_255 (a b : Z) :
  Z.land a 255 = Z.land b 255 -> byte_of_Z a = byte_of_Z b.
Proof. unfold byte_of_Z. intros ->. reflexivity. Qed.

Lemma land_shiftr_mod_u32 (n k : Z) :
  0 <= k -> k + 8 <= 32 ->
  Z.land (Z.shiftr (n mod 2 ^ 32) k) 255 = Z.land (Z.shiftr n k) 255.
Proof.
  intros Hk Hk8.
  change 255 with (Z.ones 8).
  apply Z.bits_inj'. intros i Hi.
  rewrite !Z.land_spec.
  destruct (Z.lt_ge_cases i 8) as [Hlt | Hge].
  - rewrite Z.ones_spec_low by lia. rewrite !Z.shiftr_spec by lia.
    rewrite Z.mod_pow2_bits_low by lia. reflexivity.
  - rewrite Z.ones_spec_high by lia. rewrite !andb_false_r. reflexivity.
Qed.

(** Writing [n as u32] puts the same four bytes as the low 32 bits of [n]. *)
Lemma u32_le_as_u32 (n : Z) : u32_le (as_u32 n) = u32_le n.
Proof.
  unfold u32_le, as_u32.
  f_equal; [ | f_equal; [ | f_equal; [ | f_equal]]];
    apply byte_of_Z_land_255.
  - rewrite <- (Z.shiftr_0_r (n mod 2 ^ 32)), <- (Z.shiftr_0_r n) at 1.
    apply land_shiftr_mod_u32; lia.
  - apply land_shiftr_mod_u32; lia.
  - apply land_shiftr_mod_u32; lia.
  - apply land_shiftr_mod_u32; lia.
Qed.

Lemma for_each_io_vec {A} (buf : list byte) (xs : list A)
      (body : list byte -> A -> io_result (list byte)) (f : A -> list byte) :
  (forall d x, body d x = Ok (d ++ f x)) ->
  for_each_io buf xs body = Ok (buf ++ List.concat (map f xs)).
Proof.
  intros Hbody. revert buf.
  induction xs as [| x r IH]; intros buf; simpl.
  - rewrite app_nil_r. reflexivity.
  - rewrite Hbody. simpl. rewrite IH, app_assoc. reflexivity.
Qed.

Lemma for_each_io_total {W A} `{Write W} (d : W) (xs : list A)
      (body : W -> A -> io_result W) :
  (forall d x, exists d', body d x = Ok d') ->
  exists d', for_each_io d xs body = Ok d'.
Proof.
  intros Hbody. revert d.
  induction xs as [| x r IH]; intros d; simpl.
  - eauto.
  - destruct (Hbody d x) as [d1 Hd1]. rewrite Hd1. simpl. apply IH.
Qed.

(** The blob written into a [Vec<u8>]. *)
Lemma write_blob_entries_vec (buf : list byte) (entries : list BlobEntry) :
  write_blob_entries buf entries = Ok (buf ++ blob_layout entries).
Proof.
  unfold write_blob_entries, write_u32_le. cbn [write_all write_vec io_bind].
  rewrite (for_each_io_vec _ entries _
             (fun e => u32_le (Z.of_nat (List.length (as_bytes (name e))))
                       ++ u32_le (Z.of_nat (List.length (data e))))).
  2:{ intros d x. cbn [write_all write_vec io_bind].
      rewrite !u32_le_as_u32, app_assoc. reflexivity. }
  cbn [io_bind].
  rewrite (for_each_io_vec _ entries _ (fun e => as_bytes (name e))) by reflexivity.
  cbn [io_bind].
  rewrite (for_each_io_vec _ entries _ data) by reflexivity.
  cbn [io_bind]. rewrite u32_le_as_u32.
  unfold blob_layout. rewrite !app_assoc. reflexivity.
Qed.

(* ------------------------------------------------------------------ *)
(** ** Facts about [make_config_c] *)

Lemma config_c_externs (m : BTreeMap.t ExtensionModule) :
  List.concat (map (fun em =>
    match init_fn em with
    | Some init_fn =>
        if String.eqb init_fn "NULL" then []
        else ["extern PyObject* " +++ init_fn +++ "(void);"]
    | None => []
    end) (BTreeMap.values m))
  = map (fun '(_, _, f) => "extern PyObject* " +++ f +++ "(void);") (inittab_rows m).
Proof.
  unfold BTreeMap.values.
  induction m as [| [k em] r IH]; [reflexivity |].
  cbn [map List.concat snd].
  rewrite IH. unfold inittab_rows. cbn [flat_map].
  destruct (init_fn em) as [f |]; [destruct (String.eqb f "NULL") |];
    reflexivity.
Qed.

Lemma config_c_rows (m : BTreeMap.t ExtensionModule) :
  List.concat (map (fun em =>
    match init_fn em with
    | Some init_fn =>
        if String.eqb init_fn "NULL" then []
        else ["{" +++ dq +++ module em +++ dq +++ ", " +++ init_fn +++ "},"]
    | None => []
    end) (BTreeMap.values m))
  = map (fun '(_, md, f) => "{" +++ dq +++ md +++ dq +++ ", " +++ f +++ "},")
        (inittab_rows m).
Proof.
  unfold BTreeMap.values.
  induction m as [| [k em] r IH]; [reflexivity |].
  cbn [map List.concat snd].
  rewrite IH. unfold inittab_rows. cbn [flat_map].
  destruct (init_fn em) as [f |]; [destruct (String.eqb f "NULL") |];
    reflexivity.
Qed.

Lemma inittab_rows_keys_Forall (P : string -> Prop) (m : BTreeMap.t ExtensionModule) :
  Forall P (BTreeMap.keys m) -> Forall P (map row_key (inittab_rows m)).
Proof.
  induction m as [| [k em] r IH]; intros HF; [constructor |].
  inversion HF as [| ? ? Hk Hr]; subst.
  cbn [inittab_rows flat_map].
  destruct (init_fn em) as [f |]; [destruct (String.eqb f "NULL") |]; simpl;
    auto.
Qed.

Lemma inittab_rows_sorted (m : BTreeMap.t ExtensionModule) :
  BTreeMap.wf m -> StronglySorted str_lt (map row_key (inittab_rows m)).
Proof.
  unfold BTreeMap.wf.
  induction m as [| [k em] r IH]; intros Hs; [constructor |].
  inversion Hs as [| ? ? Hr Hk]; subst.
  cbn [inittab_rows flat_map].
  destruct (init_fn em) as [f |]; [destruct (String.eqb f "NULL") |]; simpl; auto.
  constructor; auto. apply inittab_rows_keys_Forall. exact Hk.
Qed.

(* ------------------------------------------------------------------ *)
(** ** Facts about the map and set models *)

Lemma string_compare_refl (s : string) : String.compare s s = Eq.
Proof.
  induction s as [| a s IH]; [reflexivity |].
  simpl. unfold Ascii.compare. rewrite N.compare_refl. exact IH.
Qed.

Lemma get_insert {V} (k n : string) (v : V) (m : BTreeMap.t V) :
  BTreeMap.get k (BTreeMap.insert n v m)
  = if String.eqb k n then Some v else BTreeMap.get k m.
Proof.
  induction m as [| [k' v'] r IH]; simpl; [reflexivity |].
  destruct (String.compare n k') eqn:Hc.
  - apply String.compare_eq_iff in Hc. subst k'. simpl.
    destruct (String.eqb k n); reflexivity.
  - simpl. reflexivity.
  - simpl. rewrite IH.
    destruct (String.eqb_spec k k') as [-> |]; [| reflexivity].
    destruct (String.eqb_spec k' n) as [-> |]; [| reflexivity].
    rewrite string_compare_refl in Hc. discriminate.
Qed.

Lemma contains_insert {V} (k n : string) (v : V) (m : BTreeMap.t V) :
  BTreeMap.contains_key k (BTreeMap.insert n v m)
  = String.eqb k n || BTreeMap.contains_key k m.
Proof.
  unfold BTreeMap.contains_key. rewrite get_insert.
  destruct (String.eqb k n); reflexivity.
Qed.

Lemma get_remove {V} (k e : string) (m : BTreeMap.t V) :
  BTreeMap.get k (BTreeMap.remove e m)
  = if String.eqb k e then None else BTreeMap.get k m.
Proof.
  unfold BTreeMap.remove.
  induction m as [| [k' v'] r IH]; simpl.
  - destruct (String.eqb k e); reflexivity.
  - destruct (String.eqb_spec k' e) as [-> | Hne]; simpl.
    + rewrite IH. destruct (String.eqb_spec k e) as [-> |]; [reflexivity |].
      destruct (String.eqb_spec k e); [contradiction | reflexivity].
    + rewrite IH.
      destruct (String.eqb_spec k k') as [-> |].
      * destruct (String.eqb_spec k' e); [contradiction | reflexivity].
      * reflexivity.
Qed.

Lemma contains_remove {V} (k e : string) (m : BTreeMap.t V) :
  BTreeMap.contains_key k (BTreeMap.remove e m)
  = negb (String.eqb k e) && BTreeMap.contains_key k m.
Proof.
  unfold BTreeMap.contains_key. rewrite get_remove.
  destruct (String.eqb k e); reflexivity.
Qed.

Lemma contains_remove_all {V} (es : list string) (k : string) (m : BTreeMap.t V) :
  BTreeMap.contains_key k (fold_left (fun m e => BTreeMap.remove e m) es m)
  = negb (existsb (String.eqb k) es) && BTreeMap.contains_key k m.
Proof.
  revert m. induction es as [| e r IH]; intros m; simpl; [reflexivity |].
  rewrite IH, contains_remove.
  destruct (String.eqb k e), (existsb (String.eqb k) r); reflexivity.
Qed.

Lemma set_contains_insert (s : BTreeSet.t) (k x : string) :
  BTreeSet.contains (BTreeSet.insert k s) x = String.eqb x k || BTreeSet.contains s x.
Proof.
  unfold BTreeSet.contains.
  induction s as [| k' r IH]; simpl; [rewrite orb_false_r; reflexivity |].
  destruct (String.compare k k') eqn:Hc; simpl.
  - apply String.compare_eq_iff in Hc. subst k'.
    destruct (String.eqb x k); reflexivity.
  - reflexivity.
  - rewrite IH. destruct (String.eqb x k), (String.eqb x k'); reflexivity.
Qed.

Lemma filter_filter_and {A} (p q : A -> bool) (l : list A) :
  filter p (filter q l) = filter (fun x => q x && p x) l.
Proof.
  induction l as [| x r IH]; simpl; [reflexivity |].
  destruct (q x); simpl; [destruct (p x); simpl; rewrite IH |]; auto.
Qed.

(** [filter_btreemap] keeps exactly the entries whose key is whitelisted. *)
Lemma filter_btreemap_spec {V} (m : BTreeMap.t V) (f : BTreeSet.t) :
  filter_btreemap m f = filter (fun kv => BTreeSet.contains f (fst kv)) m.
Proof.
  unfold filter_btreemap.
  assert (Hgen : forall (ks : list string) (m0 : BTreeMap.t V),
    fold_left (fun m key => if BTreeSet.contains f key then m else BTreeMap.remove key m)
              ks m0
    = filter (fun kv => BTreeSet.contains f (fst kv)
                        || negb (existsb (String.eqb (fst kv)) ks)) m0).
  { induction ks as [| k ks IH]; intros m0; simpl.
    - induction m0 as [| kv r IHr]; simpl; [reflexivity |].
      rewrite orb_true_r. f_equal. exact IHr.
    - rewrite IH. destruct (BTreeSet.contains f k) eqn:Hk.
      + apply filter_ext. intros [k' v']. simpl.
        destruct (String.eqb_spec k' k) as [-> |]; simpl.
        * rewrite Hk. reflexivity.
        * reflexivity.
      + unfold BTreeMap.remove. rewrite filter_filter_and.
        apply filter_ext. intros [k' v']. simpl.
        destruct (String.eqb_spec k' k) as [-> |]; simpl.
        * rewrite Hk. reflexivity.
        * reflexivity. }
  rewrite Hgen. apply filter_ext_in. intros [k v] Hin. simpl.
  assert (Hk : existsb (String.eqb k) (BTreeMap.keys m) = true).
  { apply existsb_exists. exists k. split; [| apply String.eqb_refl].
    unfold BTreeMap.keys. change k with (fst (k, v)). apply in_map. exact Hin. }
  rewrite Hk, orb_false_r. reflexivity.
Qed.

(* ================================================================== *)
(** * Properties of the packager *)

(** C1: [write_blob_entries] writes the entry count as a little-endian
    u32, then each entry's name length and data length as little-endian
    u32s in input order, then all names concatenated, then all data
    concatenated; for [("a", 01 02)] and [("bb", 03)] the bytes are
    [02 00 00 00 01 00 00 00 02 00 00 00 02 00 00 00 01 00 00 00 61 62 62 01 02 03]. *)
Theorem write_blob_entries_layout :
  (forall (buf : list byte) (entries : list BlobEntry),
      write_blob_entries buf entries = Ok (buf ++ blob_layout entries))
  /\ write_blob_entries (W := list byte) []
       [mkBlobEntry "a" [x01; x02]; mkBlobEntry "bb" [x03]]
     = Ok [x02; x00; x00; x00; x01; x00; x00; x00; x02; x00; x00; x00;
           x02; x00; x00; x00; x01; x00; x00; x00; x61; x62; x62; x01; x02; x03].
Proof.
  split.
  - exact write_blob_entries_vec.
  - reflexivity.
Qed.

(** C2 (counterexample): an entry whose data is [2^32 + 1] bytes long is
    written without any error, so over-range entries are not rejected. *)
Lemma write_blob_entries_too_large_cex :
  ~ (forall (buf : list byte) (entries : list BlobEntry),
        (exists e, In e entries /\ entry_too_large e) ->
        exists err, write_blob_entries buf entries = Err err).
Proof.
  intros Hclaim.
  set (big := mkBlobEntry "" (repeat x00 (Z.to_nat (2 ^ 32 + 1)))).
  destruct (Hclaim [] [big]) as [err Herr].
  - exists big. split; [left; reflexivity |].
    right. unfold big. cbn [data].
    rewrite repeat_length, Z2Nat.id by lia. lia.
  - rewrite write_blob_entries_vec in Herr. discriminate.
Qed.

(** C2 (amended): [write_blob_entries] performs no size check. Over a
    writer whose [write_all] never fails it never fails, and a count or
    length is written as the four bytes of its value modulo [2^32]. *)
Theorem write_blob_entries_no_size_error {W} `{Write W} :
  (forall d bs, exists d', write_all d bs = Ok d') ->
  (forall (dest : W) (entries : list BlobEntry),
      exists d', write_blob_entries dest entries = Ok d')
  /\ (forall n : Z, u32_le (as_u32 n) = u32_le n).
Proof.
  intros Hw. split; [| exact u32_le_as_u32].
  intros dest entries. unfold write_blob_entries, write_u32_le.
  destruct (Hw dest (u32_le (as_u32 (Z.of_nat (List.length entries))))) as [d1 ->].
  cbn [io_bind].
  destruct (for_each_io_total d1 entries (fun d entry =>
      d <- write_all d (u32_le (as_u32 (Z.of_nat (List.length (as_bytes (name entry)))))) ;;
      write_all d (u32_le (as_u32 (Z.of_nat (List.length (data entry)))))))
    as [d2 ->].
  { intros d x. destruct (Hw d (u32_le (as_u32 (Z.of_nat (List.length (as_bytes (name x)))))))
      as [d' ->]. cbn [io_bind]. apply Hw. }
  cbn [io_bind].
  destruct (for_each_io_total d2 entries (fun d entry => write_all d (as_bytes (name entry))))
    as [d3 ->]; [intros; apply Hw |].
  cbn [io_bind].
  destruct (for_each_io_total d3 entries (fun d entry => write_all d (data entry)))
    as [d4 ->]; [intros; apply Hw |].
  cbn [io_bind]. eauto.
Qed.

Lemma write_blob_entries_no_size_error_witness :
  (forall (d bs : list byte), exists d', write_all d bs = Ok d')
  /\ exists d', write_blob_entries (W := list byte) [] [mkBlobEntry "a" [x01]] = Ok d'.
Proof.
  assert (Hw : forall (d bs : list byte), exists d', write_all d bs = Ok d').
  { intros d bs. eexists. reflexivity. }
  split; [exact Hw |].
  apply (proj1 (write_blob_entries_no_size_error Hw)).
Defined.

(** C7: for a staged extension map (a B-tree map, keys ascending),
    [make_config_c] emits the include line, one extern declaration per
    extension whose init function is present and not ["NULL"], the
    [_PyImport_Inittab] header, one [{"<module>", <init_fn>},] row for
    each of the same extensions in ascending name order, and the [{0, 0}]
    sentinel and closing line; the other extensions contribute nothing. *)
Theorem make_config_c_inittab (m : BTreeMap.t ExtensionModule) :
  BTreeMap.wf m ->
  make_config_c m = config_c_of_rows (inittab_rows m)
  /\ StronglySorted str_lt (map row_key (inittab_rows m)).
Proof.
  intros Hwf. split.
  - unfold make_config_c, config_c_of_rows.
    rewrite config_c_externs, config_c_rows, <- !app_assoc. reflexivity.
  - apply inittab_rows_sorted. exact Hwf.
Qed.

Lemma make_config_c_inittab_witness :
  let m := [("_io", ext "_io" true false);
            ("_nulled", mkExtensionModule "_nulled" (Some "NULL") false false "default" []);
            ("zlib", ext "zlib" false true)] in
  BTreeMap.wf m /\ make_config_c m = config_c_of_rows (inittab_rows m).
Proof.
  intros m. assert (Hwf : BTreeMap.wf m).
  { unfold BTreeMap.wf, m, str_lt. simpl.
    repeat constructor. }
  split; [exact Hwf |].
  apply (make_config_c_inittab m Hwf).
Defined.

(** C3 (code bug): with [exclude_test_modules] set, the Stdlib rule skips
    [test.test_os] but keeps the module named exactly [test], although
    [test] is one of the listed test packages: [is_stdlib_test_package]
    only tests [name.starts_with(package + ".")]. *)
Theorem stdlib_test_package_exact_name_kept :
  is_stdlib_test_package "test" = false
  /\ is_stdlib_test_package "test.test_os" = true
  /\ resolve_python_packaging (test_env 0) tt (PythonPackaging.Stdlib 0 true false)
       (test_dist "3.7.3")
     = Some ([mkPythonResourceEntry Add (PythonResource.ModuleBytecode "json" [x2a] 0);
              mkPythonResourceEntry Add (PythonResource.ModuleBytecode "test" [x2a] 0)],
             tt).
Proof. split; [| split]; vm_compute; reflexivity. Qed.

(** C4 (code bug): for version ["3.10.0"] the Virtualenv rule scans
    [<path>/lib/python3.1/site-packages], not [python3.10]: the code takes
    [&dist.version[0..3]]. *)
Theorem virtualenv_two_digit_minor_path :
  str_slice_0_3 "3.10.0" = Some "3.1"
  /\ resolve_python_packaging (test_env 0) tt
       (PythonPackaging.Virtualenv "/venv" 0 [] false) (test_dist "3.10.0")
     = Some ([mkPythonResourceEntry Add
                (PythonResource.ModuleBytecode "/venv/lib/python3.1/site-packages"
                                               [x2a] 0)], tt).
Proof. split; vm_compute; reflexivity. Qed.

(** C5 (code bug): whatever status pip exits with (1 included), the
    PipInstallSimple rule does not fail: it scans the temp directory and
    stages what is there. *)
Theorem pip_nonzero_exit_not_rejected :
  forall exit_code : Z,
  resolve_python_packaging (test_env exit_code) tt
    (PythonPackaging.PipInstallSimple "somepkg" 0 false) (test_dist "3.7.3")
  = Some ([mkPythonResourceEntry Add
             (PythonResource.ModuleBytecode "/tmp/pyoxidizer-pip-install" [x2a] 0)], tt).
Proof. intros exit_code. vm_compute. reflexivity. Qed.

(* ------------------------------------------------------------------ *)
(** ** Facts about the prefix rule and the scan loop *)

Lemma scan_flag_spec (init v : bool) (patterns : list string) (n : string) :
  scan_flag init v patterns n
  = if existsb (fun p => prefix_match p n) patterns then v else init.
Proof.
  unfold scan_flag. revert init.
  induction patterns as [| p r IH]; intros init; simpl; [reflexivity |].
  rewrite IH. destruct (prefix_match p n), (existsb (fun p => prefix_match p n) r);
    reflexivity.
Qed.

Lemma package_root_relevant_spec (packages excludes : list string) (n : string) :
  package_root_relevant packages excludes n
  = existsb (fun p => prefix_match p n) packages
    && negb (existsb (fun p => prefix_match p n) excludes).
Proof.
  unfold package_root_relevant.
  change (fold_left (fun relevant p => if prefix_match p n then false else relevant)
                    excludes (scan_flag false true packages n))
    with (scan_flag (scan_flag false true packages n) false excludes n).
  rewrite !scan_flag_spec.
  destruct (existsb (fun p => prefix_match p n) packages),
           (existsb (fun p => prefix_match p n) excludes); reflexivity.
Qed.

Lemma prefix_match_spec (p n : string) :
  prefix_match p n = true <-> n = p \/ String.prefix (p +++ ".") n = true.
Proof.
  unfold prefix_match. rewrite orb_true_iff, String.eqb_eq. reflexivity.
Qed.

Lemma existsb_prefix_match (ps : list string) (n : string) :
  existsb (fun p => prefix_match p n) ps = true
  <-> exists p, In p ps /\ (n = p \/ String.prefix (p +++ ".") n = true).
Proof.
  rewrite existsb_exists. split.
  - intros [p [Hin Hm]]. exists p. split; [exact Hin |]. apply prefix_match_spec, Hm.
  - intros [p [Hin Hm]]. exists p. split; [exact Hin |]. apply prefix_match_spec, Hm.
Qed.

Lemma for_push_spec {A} (xs : list A) (body : A -> option (list PythonResourceEntry))
      (res : list PythonResourceEntry) :
  for_push xs body = Some res ->
  (forall x, In x xs -> exists es, body x = Some es)
  /\ (forall e, In e res <-> exists x es, In x xs /\ body x = Some es /\ In e es).
Proof.
  revert res. induction xs as [| x r IH]; intros res Hres; simpl in Hres.
  - injection Hres as <-. split; [intros ? [] |].
    intros e. split; [intros [] | intros (? & ? & [] & _)].
  - unfold obind in Hres.
    destruct (body x) as [es |] eqn:Hx; [| discriminate].
    destruct (for_push r body) as [rest |] eqn:Hr; [| discriminate].
    injection Hres as <-. destruct (IH rest eq_refl) as [Hall Hin].
    split.
    + intros y [<- | Hy]; [eauto | exact (Hall y Hy)].
    + intros e. rewrite in_app_iff, Hin. split.
      * intros [He | (y & es' & Hy & Hb & He)].
        -- exists x, es. split; [left; reflexivity | auto].
        -- exists y, es'. split; [right; exact Hy | auto].
      * intros (y & es' & [<- | Hy] & Hb & He).
        -- left. rewrite Hx in Hb. injection Hb as <-. exact He.
        -- right. exists y, es'. auto.
Qed.

Lemma module_entries_names (n : string) (source : list byte) (inc : bool) (o : Z) :
  (exists e, In e (module_entries n source inc o))
  /\ (forall e, In e (module_entries n source inc o) -> entry_name e = n).
Proof.
  unfold module_entries. split.
  - eexists. apply in_app_iff. right. left. reflexivity.
  - intros e He. apply in_app_iff in He.
    destruct inc; simpl in He; destruct He as [He | He];
      try (destruct He as [<- | []]); try (subst e); try contradiction;
      reflexivity.
Qed.

(** The names staged by a scan loop are those of its [Source] resources
    that are relevant. *)
Lemma scan_sources_names {FS} (env : Env FS) (fs : FS) (root : PathBuf)
      (relevant : string -> bool) (inc : bool) (o : Z) (res : list PythonResourceEntry) :
  scan_sources env fs root relevant inc o = Some res ->
  forall n, (exists e, In e res /\ entry_name e = n)
            <-> (exists r, In r (find_python_resources env fs root)
                           /\ FsScan.flavor r = FsScan.Source
                           /\ FsScan.name r = n /\ relevant n = true).
Proof.
  unfold scan_sources. intros Hres n.
  destruct (for_push_spec _ _ _ Hres) as [Hall Hin].
  split.
  - intros [e [He <-]]. apply Hin in He as (r & es & Hr & Hb & He).
    exists r. split; [exact Hr |].
    destruct (FsScan.flavor r); try (injection Hb as <-; contradiction).
    destruct (relevant (FsScan.name r)) eqn:Hrel; [| injection Hb as <-; contradiction].
    unfold obind in Hb. destruct (fs_read env fs (FsScan.path r)); [| discriminate].
    injection Hb as <-. split; [reflexivity |].
    rewrite (proj2 (module_entries_names _ _ _ _) e He). auto.
  - intros (r & Hr & Hfl & Hn & Hrel).
    destruct (Hall r Hr) as [es Hb].
    assert (Hb' := Hb). rewrite Hfl, Hn, Hrel in Hb'.
    unfold obind in Hb'.
    destruct (fs_read env fs (FsScan.path r)) as [src |] eqn:Hread; [| discriminate].
    injection Hb' as Hes.
    destruct (proj1 (module_entries_names n src inc o)) as [e He].
    exists e. split.
    + apply Hin. exists r, es. split; [exact Hr | split; [rewrite Hread; exact Hb | rewrite <- Hes; exact He]].
    + exact (proj2 (module_entries_names n src inc o) e He).
Qed.

(** C8: in the Virtualenv and PackageRoot rules a scanned module [n] is
    excluded only when some exclude [p] has [n = p] or [n] starting with
    [p ++ "."]: the Virtualenv rule stages exactly the [Source] modules no
    exclude matches, the PackageRoot rule those some package matches and
    no exclude matches; so [foo.barbell] is never excluded by [foo.bar]. *)
Theorem exclude_prefix_rule :
  (forall excludes n,
      virtualenv_relevant excludes n = false
      <-> exists p, In p excludes /\ (n = p \/ String.prefix (p +++ ".") n = true))
  /\ (forall packages excludes n,
      package_root_relevant packages excludes n = true
      <-> (exists p, In p packages /\ (n = p \/ String.prefix (p +++ ".") n = true))
          /\ ~ (exists p, In p excludes /\ (n = p \/ String.prefix (p +++ ".") n = true)))
  /\ (forall FS (env : Env FS) fs root relevant inc o res,
      scan_sources env fs root relevant inc o = Some res ->
      forall n, (exists e, In e res /\ entry_name e = n)
                <-> (exists r, In r (find_python_resources env fs root)
                               /\ FsScan.flavor r = FsScan.Source
                               /\ FsScan.name r = n /\ relevant n = true))
  /\ (forall excludes,
      virtualenv_relevant ("foo.bar" :: excludes) "foo.barbell"
      = virtualenv_relevant excludes "foo.barbell")
  /\ (forall packages excludes,
      package_root_relevant packages ("foo.bar" :: excludes) "foo.barbell"
      = package_root_relevant packages excludes "foo.barbell").
Proof.
  assert (Hbb : prefix_match "foo.bar" "foo.barbell" = false) by reflexivity.
  split; [| split; [| split; [| split]]].
  - intros excludes n. unfold virtualenv_relevant. rewrite scan_flag_spec.
    rewrite <- existsb_prefix_match.
    destruct (existsb (fun p => prefix_match p n) excludes); split; congruence.
  - intros packages excludes n. rewrite package_root_relevant_spec.
    rewrite <- !existsb_prefix_match, andb_true_iff, negb_true_iff.
    destruct (existsb (fun p => prefix_match p n) excludes); intuition congruence.
  - intros FS env fs root relevant inc o res Hres.
    exact (scan_sources_names env fs root relevant inc o res Hres).
  - intros excludes. unfold virtualenv_relevant. rewrite !scan_flag_spec.
    cbn [existsb]. rewrite Hbb. reflexivity.
  - intros packages excludes. rewrite !package_root_relevant_spec.
    cbn [existsb]. rewrite Hbb. reflexivity.
Qed.

(* ------------------------------------------------------------------ *)
(** ** Facts about the filter rules *)

Lemma filter_btreemap_idem {V} (m : BTreeMap.t V) (f : BTreeSet.t) :
  filter_btreemap (filter_btreemap m f) f = filter_btreemap m f.
Proof.
  rewrite !filter_btreemap_spec, filter_filter_and.
  apply filter_ext. intros kv. apply andb_diag.
Qed.

Lemma filter_staging_idem (st : Staging) (f : BTreeSet.t) :
  staging_maps (filter_staging (filter_staging st f) f) = staging_maps (filter_staging st f).
Proof.
  destruct st. unfold staging_maps, filter_staging.
  cbn [extension_modules sources bytecode_requests resources].
  rewrite !filter_btreemap_idem. reflexivity.
Qed.

(** C9: intersecting the staging maps with a whitelist twice gives the
    maps of intersecting once; so a FilterFileInclude rule applied right
    after the same rule leaves the four staging maps unchanged. *)
Theorem filter_file_include_idempotent :
  (forall (st : Staging) (f : BTreeSet.t),
      staging_maps (filter_staging (filter_staging st f) f)
      = staging_maps (filter_staging st f))
  /\ (forall FS (env : Env FS) dist fs path st st1 fs1,
      process_rule env dist fs (PythonPackaging.FilterFileInclude path) st = Some (st1, fs1) ->
      exists st2,
        process_rule env dist fs1 (PythonPackaging.FilterFileInclude path) st1
        = Some (st2, fs1)
        /\ staging_maps st2 = staging_maps st1).
Proof.
  split; [exact filter_staging_idem |].
  intros FS env dist fs path st st1 fs1 H1.
  unfold process_rule in *. cbn [resolve_python_packaging obind fold_left] in *.
  unfold apply_filter_rule in *. unfold obind in *.
  destruct (read_names_or_panic env fs (path_from path)) as [names |] eqn:Hn;
    [| discriminate].
  injection H1 as <- <-. rewrite Hn.
  eexists. split; [reflexivity |].
  destruct st. unfold staging_maps, filter_staging.
  cbn [extension_modules sources bytecode_requests resources].
  rewrite !filter_btreemap_idem. reflexivity.
Qed.

Lemma filter_file_include_idempotent_witness :
  exists st2,
    process_rule (test_env 0) (test_dist "3.7.3") tt
      (PythonPackaging.FilterFileInclude "names.txt")
      (mkStaging [] [] [] [] [["names.txt"]])
    = Some (st2, tt)
    /\ staging_maps st2 = staging_maps (mkStaging [] [] [] [] [["names.txt"]]).
Proof.
  apply (proj2 filter_file_include_idempotent unit (test_env 0) (test_dist "3.7.3") tt
           "names.txt" (mkStaging [("_io", ext "_io" true false)] [] [] [] [])).
  vm_compute. reflexivity.
Defined.

Lemma prefix_hash (line : string) : String.prefix "#" line = first_char_is_hash line.
Proof.
  destruct line as [| c r]; [reflexivity |].
  change (String.prefix "#" (String c r))
    with (if ascii_dec "#" c then String.prefix "" r else false).
  destruct (ascii_dec "#" c) as [<- | Hne].
  - destruct r; reflexivity.
  - symmetry. apply Ascii.eqb_neq. intros ->. apply Hne. reflexivity.
Qed.

Lemma insert_names_spec (res : BTreeSet.t) (lines : list (io_result string)) (s : BTreeSet.t) :
  insert_names res lines = Ok s ->
  exists ls, lines = map Ok ls
             /\ s = fold_left (fun s l => BTreeSet.insert l s) (filter whitelist_line ls) res.
Proof.
  revert res. induction lines as [| line r IH]; intros res H; simpl in H.
  - injection H as <-. exists []. split; reflexivity.
  - destruct line as [l | e]; simpl in H; [| discriminate].
    rewrite prefix_hash in H.
    assert (Hw : whitelist_line l = negb (first_char_is_hash l || String.eqb l "")).
    { unfold whitelist_line.
      destruct (first_char_is_hash l), (String.eqb l ""); reflexivity. }
    destruct (first_char_is_hash l || String.eqb l "") eqn:Hc; cbn [negb] in Hw.
    + destruct (IH res H) as [ls [Hls Hs]]. exists (l :: ls).
      split; [rewrite Hls; reflexivity |].
      cbn [filter]. rewrite Hw. exact Hs.
    + destruct (IH _ H) as [ls [Hls Hs]]. exists (l :: ls).
      split; [rewrite Hls; reflexivity |].
      cbn [filter]. rewrite Hw. exact Hs.
Qed.

Lemma contains_fold_insert (ls : list string) (res : BTreeSet.t) (x : string) :
  BTreeSet.contains (fold_left (fun s l => BTreeSet.insert l s) ls res) x
  = existsb (String.eqb x) ls || BTreeSet.contains res x.
Proof.
  revert res. induction ls as [| l r IH]; intros res; simpl; [reflexivity |].
  rewrite IH, set_contains_insert.
  destruct (String.eqb x l), (existsb (String.eqb x) r); reflexivity.
Qed.

(** C10: the whitelist read from a file is exactly the set of its lines
    that are not empty and whose first character is not ['#']; so two
    files with the same such lines give the same whitelist, and comment
    or blank lines never change which staged entries a filter keeps. *)
Theorem read_resource_names_file_whitelist :
  (forall is_utf8 content s,
      read_resource_names_file is_utf8 (Some content) = Ok s ->
      exists ls, buf_lines is_utf8 content = map Ok ls
                 /\ forall x, BTreeSet.contains s x = true
                              <-> In x ls /\ x <> "" /\ first_char_is_hash x = false)
  /\ (forall is_utf8 c1 c2 ls1 ls2,
      buf_lines is_utf8 c1 = map Ok ls1 -> buf_lines is_utf8 c2 = map Ok ls2 ->
      filter whitelist_line ls1 = filter whitelist_line ls2 ->
      read_resource_names_file is_utf8 (Some c1) = read_resource_names_file is_utf8 (Some c2))
  /\ (forall V (m : BTreeMap.t V) is_utf8 c1 c2 s1 s2,
      read_resource_names_file is_utf8 (Some c1) = Ok s1 ->
      read_resource_names_file is_utf8 (Some c2) = Ok s2 ->
      (exists ls1 ls2, buf_lines is_utf8 c1 = map Ok ls1 /\ buf_lines is_utf8 c2 = map Ok ls2
                       /\ filter whitelist_line ls1 = filter whitelist_line ls2) ->
      filter_btreemap m s1 = filter_btreemap m s2).
Proof.
  assert (Hread : forall is_utf8 c ls,
    buf_lines is_utf8 c = map Ok ls ->
    read_resource_names_file is_utf8 (Some c)
    = Ok (fold_left (fun s l => BTreeSet.insert l s) (filter whitelist_line ls)
                    BTreeSet.empty)).
  { intros is_utf8 c ls Hl. unfold read_resource_names_file. rewrite Hl.
    clear Hl. generalize BTreeSet.empty as res.
    induction ls as [| l r IH]; intros res; simpl; [reflexivity |].
    rewrite prefix_hash. unfold whitelist_line at 1.
    destruct (first_char_is_hash l), (String.eqb l ""); simpl; apply IH. }
  split; [| split].
  - intros is_utf8 content s H.
    unfold read_resource_names_file in H.
    destruct (insert_names_spec _ _ _ H) as [ls [Hl ->]].
    exists ls. split; [exact Hl |]. intros x.
    rewrite contains_fold_insert. simpl. rewrite orb_false_r.
    rewrite existsb_exists. split.
    + intros [y [Hy Hxy]]. apply String.eqb_eq in Hxy. subst y.
      apply filter_In in Hy as [Hin Hw]. unfold whitelist_line in Hw.
      apply andb_true_iff in Hw as [H1 H2].
      apply negb_true_iff, String.eqb_neq in H1. apply negb_true_iff in H2. auto.
    + intros [Hin [Hne Hh]]. exists x. split; [| apply String.eqb_refl].
      apply filter_In. split; [exact Hin |]. unfold whitelist_line.
      apply String.eqb_neq in Hne. rewrite Hne, Hh. reflexivity.
  - intros is_utf8 c1 c2 ls1 ls2 H1 H2 Heq.
    rewrite (Hread _ _ _ H1), (Hread _ _ _ H2), Heq. reflexivity.
  - intros V m is_utf8 c1 c2 s1 s2 Hs1 Hs2 (ls1 & ls2 & H1 & H2 & Heq).
    rewrite (Hread _ _ _ H1) in Hs1. rewrite (Hread _ _ _ H2) in Hs2.
    rewrite Heq in Hs1. rewrite Hs1 in Hs2. injection Hs2 as ->. reflexivity.
Qed.

Lemma read_resource_names_file_whitelist_witness :
  let content := list_byte_of_string
    ("# comment" +++ nl +++ nl +++ "foo" +++ String (ascii_of_nat 13) nl +++ "bar" +++ nl) in
  read_resource_names_file (fun _ => true) (Some content) = Ok ["bar"; "foo"]
  /\ exists ls, buf_lines (fun _ => true) content = map Ok ls
                /\ forall x, BTreeSet.contains ["bar"; "foo"] x = true
                             <-> In x ls /\ x <> "" /\ first_char_is_hash x = false.
Proof.
  intros content.
  assert (H : read_resource_names_file (fun _ => true) (Some content) = Ok ["bar"; "foo"])
    by (vm_compute; reflexivity).
  split; [exact H |].
  apply (proj1 read_resource_names_file_whitelist _ _ _ H).
Defined.

(* ------------------------------------------------------------------ *)
(** ** Facts about the required-extensions closure *)

Lemma add_required_spec (ext : BTreeMap.t (list ExtensionModule))
      (m m' : BTreeMap.t ExtensionModule) :
  add_required ext m = Some m' ->
  (forall k, BTreeMap.contains_key k m = true -> BTreeMap.contains_key k m' = true)
  /\ (forall n variants em, In (n, variants) ext -> nth_error variants 0 = Some em ->
        builtin_default em || required em = true -> BTreeMap.contains_key n m' = true).
Proof.
  revert m. induction ext as [| [n variants] r IH]; intros m H; cbn [add_required] in H.
  - injection H as <-. split; [auto | intros ? ? ? []].
  - unfold obind in H. destruct (nth_error variants 0) as [em |] eqn:Hv; [| discriminate].
    set (m1 := if (builtin_default em || required em)
                  && negb (BTreeMap.contains_key n m)
               then BTreeMap.insert n em m else m) in H.
    assert (Hmono : forall k, BTreeMap.contains_key k m = true ->
                              BTreeMap.contains_key k m1 = true).
    { intros k Hk. unfold m1.
      destruct ((builtin_default em || required em) && negb (BTreeMap.contains_key n m));
        [rewrite contains_insert, Hk, orb_true_r; reflexivity | exact Hk]. }
    assert (Hn : builtin_default em || required em = true ->
                 BTreeMap.contains_key n m1 = true).
    { intros Hreq. unfold m1. rewrite Hreq. simpl.
      destruct (BTreeMap.contains_key n m) eqn:Hc; simpl; [exact Hc |].
      rewrite contains_insert, String.eqb_refl. reflexivity. }
    destruct (IH m1 H) as [Hm Hall]. split.
    + intros k Hk. apply Hm, Hmono, Hk.
    + intros n' variants' em' [Heq | Hin] Hv' Hreq.
      * injection Heq as <- <-. rewrite Hv in Hv'. injection Hv' as <-.
        apply Hm, Hn, Hreq.
      * exact (Hall n' variants' em' Hin Hv' Hreq).
Qed.

Lemma resolve_python_resources_extensions {FS} (env : Env FS) fs config dist r :
  resolve_python_resources env fs config dist = Some r ->
  exists st em,
    add_required (Dist.extension_modules dist) (extension_modules st) = Some em
    /\ PythonResources.extension_modules r = remove_ignored env em.
Proof.
  unfold resolve_python_resources, obind.
  destruct (process_rules env dist fs (python_packaging config) Staging.empty) as [st |];
    [| discriminate].
  destruct (add_required (Dist.extension_modules dist) (extension_modules st)) as [em |] eqn:Ha;
    [| discriminate].
  destruct (compile_requests env (bytecode_requests st) BTreeMap.empty); [| discriminate].
  intros H. injection H as <-. exists st, em. split; [exact Ha | reflexivity].
Qed.

(** C6: whenever [resolve_python_resources] returns, every extension of
    the distribution whose first variant has [builtin_default] or
    [required] set is in the returned [extension_modules], whatever rules
    and filters ran, unless its name is in [OS_IGNORE_EXTENSIONS]; and no
    name of [OS_IGNORE_EXTENSIONS] is in it. *)
Theorem resolve_required_extensions_present {FS} (env : Env FS) fs config dist r :
  resolve_python_resources env fs config dist = Some r ->
  (forall n variants em,
      In (n, variants) (Dist.extension_modules dist) ->
      nth_error variants 0 = Some em ->
      builtin_default em || required em = true ->
      ~ In n (OS_IGNORE_EXTENSIONS (target_os env)) ->
      BTreeMap.contains_key n (PythonResources.extension_modules r) = true)
  /\ (forall n, In n (OS_IGNORE_EXTENSIONS (target_os env)) ->
      BTreeMap.contains_key n (PythonResources.extension_modules r) = false).
Proof.
  intros H.
  destruct (resolve_python_resources_extensions env fs config dist r H)
    as (st & em & Ha & ->).
  destruct (add_required_spec _ _ _ Ha) as [_ Hreq].
  unfold remove_ignored. split.
  - intros n variants em' Hin Hv Hr Hnot.
    rewrite contains_remove_all, (Hreq n variants em' Hin Hv Hr).
    destruct (existsb (String.eqb n) (OS_IGNORE_EXTENSIONS (target_os env))) eqn:Hex;
      [| reflexivity].
    exfalso. apply Hnot. apply existsb_exists in Hex as [x [Hx Hnx]].
    apply String.eqb_eq in Hnx. subst x. exact Hx.
  - intros n Hin. rewrite contains_remove_all.
    assert (Hex : existsb (String.eqb n) (OS_IGNORE_EXTENSIONS (target_os env)) = true).
    { apply existsb_exists. exists n. split; [exact Hin | apply String.eqb_refl]. }
    rewrite Hex. reflexivity.
Qed.

Lemma resolve_required_extensions_present_witness :
  exists r,
    resolve_python_resources (test_env 0) tt
      (mkConfig [PythonPackaging.StdlibExtensionsPolicy "all";
                 PythonPackaging.FilterFileInclude "names.txt"])
      (test_dist "3.7.3") = Some r
    /\ map fst (PythonResources.extension_modules r) = ["_io"; "zlib"]
    /\ BTreeMap.contains_key "zlib" (PythonResources.extension_modules r) = true
    /\ BTreeMap.contains_key "_crypt" (PythonResources.extension_modules r) = false.
Proof.
  eexists. split; [vm_compute; reflexivity |]. split; [vm_compute; reflexivity |].
  split.
  - apply (proj1 (resolve_required_extensions_present (test_env 0) tt
                    (mkConfig [PythonPackaging.StdlibExtensionsPolicy "all";
                               PythonPackaging.FilterFileInclude "names.txt"])
                    (test_dist "3.7.3") _ eq_refl)
             "zlib" [ext "zlib" false true] (ext "zlib" false true)).
    + vm_compute. auto 10.
    + reflexivity.
    + reflexivity.
    + vm_compute. intros [H | [H | []]]; discriminate.
  - apply (proj2 (resolve_required_extensions_present (test_env 0) tt
                    (mkConfig [PythonPackaging.StdlibExtensionsPolicy "all";
                               PythonPackaging.FilterFileInclude "names.txt"])
                    (test_dist "3.7.3") _ eq_refl)).
    vm_compute. auto.
Defined.

(* ================================================================== *)
(** * Further properties of the resolver *)

Lemma for_push_Forall {A} (P : PythonResourceEntry -> Prop) (xs : list A)
      (body : A -> option (list PythonResourceEntry)) (res : list PythonResourceEntry) :
  for_push xs body = Some res ->
  (forall x es, In x xs -> body x = Some es -> Forall P es) ->
  Forall P res.
Proof.
  revert res. induction xs as [| x r IH]; intros res Hres Hb; simpl in Hres.
  - injection Hres as <-. constructor.
  - unfold obind in Hres.
    destruct (body x) as [es |] eqn:Hx; [| discriminate].
    destruct (for_push r body) as [rest |] eqn:Hr; [| discriminate].
    injection Hres as <-. apply Forall_app. split.
    + apply (Hb x); [left; reflexivity | exact Hx].
    + apply IH; [reflexivity |]. intros y es' Hy. apply Hb. right. exact Hy.
Qed.

Lemma for_push_None {A} (xs : list A) (body : A -> option (list PythonResourceEntry)) :
  for_push xs body = None <-> exists x, In x xs /\ body x = None.
Proof.
  induction xs as [| x r IH]; simpl.
  - split; [discriminate | intros (? & [] & _)].
  - unfold obind. destruct (body x) as [es |] eqn:Hx.
    + destruct (for_push r body) as [rest |] eqn:Hr.
      * split; [discriminate |]. intros (y & [<- | Hy] & Hb); [congruence |].
        assert (Hn : Some rest = None) by (apply IH; eauto). discriminate.
      * split; [| reflexivity]. intros _.
        destruct (proj1 IH eq_refl) as (y & Hy & Hb). eauto.
    + split; [| reflexivity]. intros _. eauto.
Qed.

Lemma module_entries_Add (n : string) (source : list byte) (inc : bool) (o : Z) :
  Forall (fun e => action e = Add) (module_entries n source inc o).
Proof.
  unfold module_entries. apply Forall_app. split; [destruct inc |]; repeat constructor.
Qed.

Lemma scan_sources_Add {FS} (env : Env FS) (fs : FS) (root : PathBuf)
      (relevant : string -> bool) (inc : bool) (o : Z) (res : list PythonResourceEntry) :
  scan_sources env fs root relevant inc o = Some res ->
  Forall (fun e => action e = Add) res.
Proof.
  unfold scan_sources. intros H. apply (for_push_Forall _ _ _ _ H).
  intros r es _ Hb.
  destruct (FsScan.flavor r); try (injection Hb as <-; constructor).
  destruct (relevant (FsScan.name r)); [| injection Hb as <-; constructor].
  unfold obind in Hb. destruct (fs_read env fs (FsScan.path r)); [| discriminate].
  injection Hb as <-. apply module_entries_Add.
Qed.


(** X1: no packaging rule ever asks for a removal: every entry
    [resolve_python_packaging] returns has the action [Add]. *)
Theorem resolve_python_packaging_only_adds {FS} (env : Env FS) fs package dist res fs' :
  resolve_python_packaging env fs package dist = Some (res, fs') ->
  Forall (fun e => action e = Add) res.
Proof.
  destruct package; cbn [resolve_python_packaging]; unfold obind.
  - destruct (for_push _ _) as [r |] eqn:H; intros E; [| discriminate].
    injection E as <- _. apply (for_push_Forall _ _ _ _ H).
    intros [n variants] es _ Hb.
    destruct (String.eqb policy "minimal").
    + destruct (nth_error variants 0); [| discriminate]. injection Hb as <-.
      destruct (_ || _); repeat constructor.
    + destruct (String.eqb policy "all").
      * destruct (nth_error variants 0); [| discriminate]. injection Hb as <-.
        repeat constructor.
      * destruct (String.eqb policy "no-libraries"); [| discriminate].
        injection Hb as <-. destruct (first_without_links variants); repeat constructor.
  - destruct (for_push _ _) as [r |] eqn:H; intros E; [| discriminate].
    injection E as <- _. apply (for_push_Forall _ _ _ _ H).
    intros n es _ Hb. destruct (BTreeMap.get n _) as [modules |].
    + destruct (nth_error modules 0); [| discriminate]. injection Hb as <-.
      repeat constructor.
    + injection Hb as <-. constructor.
  - destruct (for_push _ _) as [r |] eqn:H; intros E; [| discriminate].
    injection E as <- _. apply (for_push_Forall _ _ _ _ H).
    intros [n modules] es _ Hb. destruct (existsb _ _).
    + injection Hb as <-. constructor.
    + destruct (nth_error modules 0); [| discriminate]. injection Hb as <-.
      repeat constructor.
  - destruct (BTreeMap.get extension _) as [variants |]; [| discriminate].
    destruct (flat_map _ variants) eqn:Hf; [discriminate |].
    intros E. injection E as <- _. rewrite <- Hf.
    apply Forall_forall. intros e He. apply in_flat_map in He as (em & _ & He).
    destruct (String.eqb (variant em) variant0); [| contradiction].
    destruct He as [<- | []]. reflexivity.
  - destruct (for_push _ _) as [r |] eqn:H; intros E; [| discriminate].
    injection E as <- _. apply (for_push_Forall _ _ _ _ H).
    intros [n p] es _ Hb. destruct (_ && _).
    + injection Hb as <-. constructor.
    + destruct (fs_read env fs p); [| discriminate]. injection Hb as <-.
      apply module_entries_Add.
  - destruct (str_slice_0_3 _); [| discriminate].
    destruct (scan_sources _ _ _ _ _ _) as [r |] eqn:H; intros E; [| discriminate].
    injection E as <- _. exact (scan_sources_Add _ _ _ _ _ _ _ H).
  - destruct (scan_sources _ _ _ _ _ _) as [r |] eqn:H; intros E; [| discriminate].
    injection E as <- _. exact (scan_sources_Add _ _ _ _ _ _ _ H).
  - destruct (tempdir_new env _ _) as [[tmp fs1] |]; [| discriminate].
    destruct (command_status env _ _ _) as [[st fs2] |]; [| discriminate].
    destruct (scan_sources _ _ _ _ _ _) as [r |] eqn:H; intros E; [| discriminate].
    injection E as <- _. exact (scan_sources_Add _ _ _ _ _ _ _ H).
  - intros E. injection E as <- _. constructor.
  - intros E. injection E as <- _. constructor.
Qed.

Lemma for_push_ext {A} (xs : list A) (b1 b2 : A -> option (list PythonResourceEntry)) :
  (forall x, In x xs -> b1 x = b2 x) -> for_push xs b1 = for_push xs b2.
Proof.
  induction xs as [| x r IH]; intros Hb; simpl; [reflexivity |].
  rewrite (Hb x (or_introl eq_refl)), IH; [reflexivity |].
  intros y Hy. apply Hb. right. exact Hy.
Qed.

Lemma for_push_names {A} (xs : list A) (body : A -> option (list PythonResourceEntry))
      (g : A -> list string) (res : list PythonResourceEntry) :
  for_push xs body = Some res ->
  (forall x es, In x xs -> body x = Some es -> map entry_name es = g x) ->
  map entry_name res = flat_map g xs.
Proof.
  revert res. induction xs as [| x r IH]; intros res Hres Hb; simpl in Hres.
  - injection Hres as <-. reflexivity.
  - unfold obind in Hres.
    destruct (body x) as [es |] eqn:Hx; [| discriminate].
    destruct (for_push r body) as [rest |] eqn:Hr; [| discriminate].
    injection Hres as <-. cbn [flat_map]. rewrite map_app.
    rewrite (Hb x es (or_introl eq_refl) Hx), (IH rest eq_refl); [reflexivity |].
    intros y es' Hy. apply Hb. right. exact Hy.
Qed.

Lemma flat_map_fst {A B} (xs : list (A * B)) :
  flat_map (fun x => [fst x]) xs = map fst xs.
Proof. induction xs as [| x r IH]; simpl; [reflexivity | rewrite IH; reflexivity]. Qed.

(** X2: the StdlibExtensionsPolicy rule with a policy other than
    [minimal], [all] and [no-libraries] panics exactly when the
    distribution has at least one extension module; with none it yields
    no entries. *)
Theorem policy_unknown_panics {FS} (env : Env FS) fs policy dist :
  policy <> "minimal" -> policy <> "all" -> policy <> "no-libraries" ->
  (resolve_python_packaging env fs (PythonPackaging.StdlibExtensionsPolicy policy) dist = None
   <-> Dist.extension_modules dist <> [])
  /\ (Dist.extension_modules dist = [] ->
      resolve_python_packaging env fs (PythonPackaging.StdlibExtensionsPolicy policy) dist
      = Some ([], fs)).
Proof.
  intros H1 H2 H3.
  apply String.eqb_neq in H1, H2, H3.
  cbn [resolve_python_packaging]. unfold obind at 1.
  rewrite (for_push_ext _ _ (fun _ => None)).
  2:{ intros [n variants] _. rewrite H1, H2, H3. reflexivity. }
  destruct (Dist.extension_modules dist) as [| x r].
  - split; [split; [discriminate | intros []; reflexivity] | reflexivity].
  - split; [| discriminate]. split; [intros _; discriminate |]. intros _. reflexivity.
Qed.

Lemma policy_unknown_panics_witness :
  "bogus" <> "minimal" /\ "bogus" <> "all" /\ "bogus" <> "no-libraries"
  /\ resolve_python_packaging (test_env 0) tt
       (PythonPackaging.StdlibExtensionsPolicy "bogus") (test_dist "3.7.3") = None.
Proof.
  assert (H1 : "bogus" <> "minimal") by discriminate.
  assert (H2 : "bogus" <> "all") by discriminate.
  assert (H3 : "bogus" <> "no-libraries") by discriminate.
  split; [exact H1 | split; [exact H2 | split; [exact H3 |]]].
  apply (proj1 (policy_unknown_panics (test_env 0) tt "bogus" (test_dist "3.7.3") H1 H2 H3)).
  discriminate.
Defined.

(** X3: the [all] policy panics exactly when some extension of the
    distribution has no variant; otherwise it stages one entry per
    extension, in the distribution's (ascending) order, each with the
    extension's first variant. *)
Theorem policy_all_entries {FS} (env : Env FS) fs dist :
  (resolve_python_packaging env fs (PythonPackaging.StdlibExtensionsPolicy "all") dist = None
   <-> exists n, In (n, []) (Dist.extension_modules dist))
  /\ (forall res fs',
      resolve_python_packaging env fs (PythonPackaging.StdlibExtensionsPolicy "all") dist
      = Some (res, fs') ->
      fs' = fs
      /\ map entry_name res = BTreeMap.keys (Dist.extension_modules dist)
      /\ Forall (fun e => exists n em vs, In (n, em :: vs) (Dist.extension_modules dist)
                                         /\ e = add_ext n em) res).
Proof.
  cbn [resolve_python_packaging]. unfold obind at 1.
  set (body := fun x : string * list ExtensionModule =>
                 match snd x with [] => None | em :: _ => Some [add_ext (fst x) em] end).
  rewrite (for_push_ext _ _ body).
  2:{ intros [n [| em vs]] _; reflexivity. }
  split.
  - destruct (for_push _ body) eqn:H.
    + split; [discriminate |]. intros [n Hn].
      destruct (for_push_spec _ _ _ H) as [Hall _].
      destruct (Hall _ Hn) as [es Hes]. discriminate.
    + split; [intros _ | reflexivity].
      apply for_push_None in H as ([n [| em vs]] & Hin & Hb); [eauto | discriminate].
  - intros res fs' E.
    destruct (for_push _ body) as [r |] eqn:H; [| discriminate].
    injection E as <- <-. split; [reflexivity | split].
    + unfold BTreeMap.keys. rewrite <- flat_map_fst.
      apply (for_push_names _ _ _ _ H).
      intros [n [| em vs]] es _ Hb; [discriminate |]. injection Hb as <-. reflexivity.
    + apply (for_push_Forall _ _ _ _ H).
      intros [n [| em vs]] es Hin Hb; [discriminate |]. injection Hb as <-.
      constructor; [eauto | constructor].
Qed.

(** X4: the [minimal] policy panics exactly when some extension of the
    distribution has no variant; otherwise the entries it stages are
    exactly the extensions whose first variant is [builtin_default] or
    [required], each with that first variant. *)
Theorem policy_minimal_entries {FS} (env : Env FS) fs dist :
  (resolve_python_packaging env fs (PythonPackaging.StdlibExtensionsPolicy "minimal") dist
   = None <-> exists n, In (n, []) (Dist.extension_modules dist))
  /\ (forall res fs',
      resolve_python_packaging env fs (PythonPackaging.StdlibExtensionsPolicy "minimal") dist
      = Some (res, fs') ->
      fs' = fs
      /\ forall e, In e res
                   <-> exists n em vs, In (n, em :: vs) (Dist.extension_modules dist)
                                       /\ builtin_default em || required em = true
                                       /\ e = add_ext n em).
Proof.
  cbn [resolve_python_packaging]. unfold obind at 1.
  set (body := fun x : string * list ExtensionModule =>
                 match snd x with
                 | [] => None
                 | em :: _ => Some (if builtin_default em || required em
                                    then [add_ext (fst x) em] else [])
                 end).
  rewrite (for_push_ext _ _ body).
  2:{ intros [n [| em vs]] _; reflexivity. }
  split.
  - destruct (for_push _ body) eqn:H.
    + split; [discriminate |]. intros [n Hn].
      destruct (for_push_spec _ _ _ H) as [Hall _].
      destruct (Hall _ Hn) as [es Hes]. discriminate.
    + split; [intros _ | reflexivity].
      apply for_push_None in H as ([n [| em vs]] & Hin & Hb); [eauto | discriminate].
  - intros res fs' E.
    destruct (for_push _ body) as [r |] eqn:H; [| discriminate].
    injection E as <- <-. split; [reflexivity |].
    destruct (for_push_spec _ _ _ H) as [_ Hin]. intros e. rewrite Hin. split.
    + intros ([n [| em vs]] & es & Hx & Hb & He); [discriminate |].
      injection Hb as <-. cbn [fst] in He.
      destruct (builtin_default em || required em) eqn:Hr; [| contradiction].
      destruct He as [<- | []]. eauto 6.
    + intros (n & em & vs & Hx & Hr & ->). exists (n, em :: vs).
      eexists. split; [exact Hx | split; [reflexivity |]].
      cbn [fst]. rewrite Hr. left. reflexivity.
Qed.

(** X5: the [no-libraries] policy never panics; each extension with a
    variant that links no library is staged once, with the first such
    variant, and extensions all of whose variants link libraries are left
    out. *)
Theorem policy_no_libraries_entries {FS} (env : Env FS) fs dist :
  exists res,
    resolve_python_packaging env fs (PythonPackaging.StdlibExtensionsPolicy "no-libraries") dist
    = Some (res, fs)
    /\ map entry_name res
       = map fst (filter (fun x => existsb (fun em => match links em with [] => true | _ => false end)
                                           (snd x))
                         (Dist.extension_modules dist))
    /\ Forall (fun e => exists n vs1 em vs2,
                 In (n, vs1 ++ em :: vs2) (Dist.extension_modules dist)
                 /\ links em = [] /\ Forall (fun em' => links em' <> []) vs1
                 /\ e = add_ext n em) res.
Proof.
  cbn [resolve_python_packaging]. unfold obind at 1.
  set (body := fun x : string * list ExtensionModule =>
                 Some (match first_without_links (snd x) with
                       | Some em => [add_ext (fst x) em]
                       | None => []
                       end)).
  rewrite (for_push_ext _ _ body).
  2:{ intros [n vs] _; reflexivity. }
  assert (Hfw : forall vs em, first_without_links vs = Some em ->
            exists vs1 vs2, vs = vs1 ++ em :: vs2 /\ links em = []
                            /\ Forall (fun em' => links em' <> []) vs1).
  { induction vs as [| v r IH]; intros em H; [discriminate |]. cbn [first_without_links] in H.
    destruct (links v) eqn:Hl.
    - injection H as <-. exists [], r. auto.
    - destruct (IH em H) as (vs1 & vs2 & -> & Hem & Hall).
      exists (v :: vs1), vs2. split; [reflexivity | split; [exact Hem |]].
      constructor; [rewrite Hl; discriminate | exact Hall]. }
  assert (Hfw_none : forall vs,
            first_without_links vs = None
            <-> existsb (fun em => match links em with [] => true | _ => false end) vs = false).
  { induction vs as [| v r IH]; [split; reflexivity |]. cbn [first_without_links existsb].
    destruct (links v); [split; discriminate | exact IH]. }
  assert (Htot : forall xs, exists r, for_push xs body = Some r).
  { induction xs as [| x r [rest IH]]; [eexists; reflexivity |].
    simpl. rewrite IH. eexists. reflexivity. }
  destruct (Htot (Dist.extension_modules dist)) as [res H].
  rewrite H. exists res. split; [reflexivity | split].
  - rewrite (for_push_names _ _ (fun x => if existsb (fun em => match links em with [] => true | _ => false end) (snd x) then [fst x] else []) _ H).
    + clear. induction (Dist.extension_modules dist) as [| x r IH]; [reflexivity |].
      cbn [flat_map filter]. destruct (existsb _ (snd x)); simpl; rewrite IH; reflexivity.
    + intros [n vs] es _ Hb. injection Hb as <-. cbn [fst snd].
      destruct (first_without_links vs) eqn:Hf.
      * destruct (existsb _ vs) eqn:He; [reflexivity |].
        apply Hfw_none in He. congruence.
      * apply Hfw_none in Hf. rewrite Hf. reflexivity.
  - apply (for_push_Forall _ _ _ _ H). intros [n vs] es Hin Hb. injection Hb as <-.
    cbn [fst snd]. destruct (first_without_links vs) as [em |] eqn:Hf; [| constructor].
    destruct (Hfw vs em Hf) as (vs1 & vs2 & -> & Hem & Hall).
    constructor; [| constructor]. exists n, vs1, em, vs2. auto.
Qed.

(** X6: the StdlibExtensionsExplicitIncludes rule silently skips names
    the distribution does not have; it panics only for a listed name
    whose variant list is empty; otherwise it stages one entry per listed
    name the distribution has, in the order (and with the repetitions) of
    the list, each with the extension's first variant. *)
Theorem explicit_includes_entries {FS} (env : Env FS) fs includes dist :
  (resolve_python_packaging env fs
     (PythonPackaging.StdlibExtensionsExplicitIncludes includes) dist = None
   <-> exists n, In n includes /\ BTreeMap.get n (Dist.extension_modules dist) = Some [])
  /\ (forall res fs',
      resolve_python_packaging env fs
        (PythonPackaging.StdlibExtensionsExplicitIncludes includes) dist = Some (res, fs') ->
      fs' = fs
      /\ map entry_name res
         = filter (fun n => BTreeMap.contains_key n (Dist.extension_modules dist)) includes
      /\ Forall (fun e => exists em vs,
                   BTreeMap.get (entry_name e) (Dist.extension_modules dist) = Some (em :: vs)
                   /\ e = add_ext (entry_name e) em) res).
Proof.
  cbn [resolve_python_packaging]. unfold obind at 1.
  set (ext := Dist.extension_modules dist).
  split.
  - destruct (for_push includes _) eqn:H.
    + split; [discriminate |]. intros (n & Hn & Hg).
      destruct (for_push_spec _ _ _ H) as [Hall _].
      destruct (Hall _ Hn) as [es Hes]. rewrite Hg in Hes. discriminate.
    + split; [intros _ | reflexivity].
      apply for_push_None in H as (n & Hin & Hb).
      destruct (BTreeMap.get n ext) as [[| em vs] |] eqn:Hg; try discriminate. eauto.
  - intros res fs' E.
    destruct (for_push includes _) as [r |] eqn:H; [| discriminate].
    injection E as <- <-. split; [reflexivity | split].
    + rewrite (for_push_names _ _ (fun n => if BTreeMap.contains_key n ext then [n] else []) _ H).
      * clear. induction includes as [| n r IH]; [reflexivity |].
        cbn [flat_map filter]. destruct (BTreeMap.contains_key n ext); simpl; rewrite IH;
          reflexivity.
      * intros n es _ Hb. unfold BTreeMap.contains_key.
        destruct (BTreeMap.get n ext) as [[| em vs] |]; try discriminate;
          injection Hb as <-; reflexivity.
    + apply (for_push_Forall _ _ _ _ H). intros n es _ Hb.
      destruct (BTreeMap.get n ext) as [[| em vs] |] eqn:Hg; try discriminate;
        injection Hb as <-; [| constructor].
      constructor; [| constructor]. cbn [entry_name add_ext resource]. eauto.
Qed.

(** X7: the StdlibExtensionsExplicitExcludes rule stages, in the
    distribution's order, every extension whose name is not in the
    exclude list, each with its first variant; it panics exactly when
    such an extension has no variant. *)
Theorem explicit_excludes_entries {FS} (env : Env FS) fs excludes dist :
  (resolve_python_packaging env fs
     (PythonPackaging.StdlibExtensionsExplicitExcludes excludes) dist = None
   <-> exists n, In (n, []) (Dist.extension_modules dist) /\ ~ In n excludes)
  /\ (forall res fs',
      resolve_python_packaging env fs
        (PythonPackaging.StdlibExtensionsExplicitExcludes excludes) dist = Some (res, fs') ->
      fs' = fs
      /\ map entry_name res
         = filter (fun n => negb (existsb (String.eqb n) excludes))
                  (BTreeMap.keys (Dist.extension_modules dist))
      /\ Forall (fun e => exists em vs, In (entry_name e, em :: vs) (Dist.extension_modules dist)
                                        /\ e = add_ext (entry_name e) em) res).
Proof.
  assert (Hex : forall n, existsb (String.eqb n) excludes = true <-> In n excludes).
  { intros n. rewrite existsb_exists. split.
    - intros (x & Hx & Hnx). apply String.eqb_eq in Hnx. subst. exact Hx.
    - intros Hn. exists n. split; [exact Hn | apply String.eqb_refl]. }
  cbn [resolve_python_packaging]. unfold obind at 1.
  set (body := fun x : string * list ExtensionModule =>
                 if existsb (String.eqb (fst x)) excludes then Some []
                 else match snd x with [] => None | em :: _ => Some [add_ext (fst x) em] end).
  rewrite (for_push_ext _ _ body).
  2:{ intros [n [| em vs]] _; reflexivity. }
  split.
  - destruct (for_push _ body) eqn:H.
    + split; [discriminate |]. intros (n & Hn & Hnot).
      destruct (for_push_spec _ _ _ H) as [Hall _].
      destruct (Hall _ Hn) as [es Hes]. unfold body in Hes. cbn [fst snd] in Hes.
      destruct (existsb (String.eqb n) excludes) eqn:He; [apply Hex in He; contradiction |].
      discriminate.
    + split; [intros _ | reflexivity].
      apply for_push_None in H as ([n vs] & Hin & Hb). unfold body in Hb. cbn [fst snd] in Hb.
      destruct (existsb (String.eqb n) excludes) eqn:He; [discriminate |].
      destruct vs; [| discriminate]. exists n. split; [exact Hin |].
      intros Hn. apply Hex in Hn. congruence.
  - intros res fs' E.
    destruct (for_push _ body) as [r |] eqn:H; [| discriminate].
    injection E as <- <-. split; [reflexivity | split].
    + rewrite (for_push_names _ _ (fun x => if existsb (String.eqb (fst x)) excludes
                                           then [] else [fst x]) _ H).
      * unfold BTreeMap.keys. clear.
        induction (Dist.extension_modules dist) as [| x r IH]; [reflexivity |].
        cbn [flat_map filter map]. destruct (existsb _ excludes); simpl; rewrite IH;
          reflexivity.
      * intros [n vs] es _ Hb. unfold body in Hb. cbn [fst snd] in *.
        destruct (existsb (String.eqb n) excludes); [injection Hb as <-; reflexivity |].
        destruct vs; [discriminate |]. injection Hb as <-. reflexivity.
    + apply (for_push_Forall _ _ _ _ H). intros [n vs] es Hin Hb.
      unfold body in Hb. cbn [fst snd] in Hb.
      destruct (existsb (String.eqb n) excludes); [injection Hb as <-; constructor |].
      destruct vs as [| em vs]; [discriminate |]. injection Hb as <-.
      constructor; [| constructor]. cbn [entry_name add_ext resource]. eauto.
Qed.

Lemma fold_apply_add_ext (x : string) (ems : list ExtensionModule) (st : Staging) :
  BTreeMap.get x (extension_modules (fold_left apply_entry (map (add_ext x) ems) st))
  = match rev ems with [] => BTreeMap.get x (extension_modules st) | em :: _ => Some em end.
Proof.
  revert st. induction ems as [| em r IH]; intros st; [reflexivity |].
  cbn [map fold_left]. rewrite IH. cbn [rev].
  destruct st as [em0 src bc rs rf]. cbn [apply_entry add_ext action resource extension_modules].
  rewrite get_insert, String.eqb_refl.
  destruct (rev r); reflexivity.
Qed.

(** X8: the StdlibExtensionVariant rule panics exactly when the
    distribution has no extension of that name or none of its variants
    has the requested variant name; otherwise it stages every matching
    variant, in order, and once staged the last matching variant is the
    one kept for the extension. *)
Theorem extension_variant_entries {FS} (env : Env FS) fs x v dist :
  (resolve_python_packaging env fs (PythonPackaging.StdlibExtensionVariant x v) dist = None
   <-> forall vs, BTreeMap.get x (Dist.extension_modules dist) = Some vs ->
                  Forall (fun em => variant em <> v) vs)
  /\ (forall res fs',
      resolve_python_packaging env fs (PythonPackaging.StdlibExtensionVariant x v) dist
      = Some (res, fs') ->
      fs' = fs
      /\ exists vs ems em,
           BTreeMap.get x (Dist.extension_modules dist) = Some vs
           /\ filter (fun em => String.eqb (variant em) v) vs = ems ++ [em]
           /\ res = map (add_ext x) (ems ++ [em])
           /\ forall st, BTreeMap.get x (extension_modules (fold_left apply_entry res st))
                         = Some em).
Proof.
  assert (Hfm : forall vs, flat_map (fun em => if String.eqb (variant em) v
                                               then [add_ext x em] else []) vs
                           = map (add_ext x) (filter (fun em => String.eqb (variant em) v) vs)).
  { induction vs as [| em r IH]; [reflexivity |]. cbn [flat_map filter].
    destruct (String.eqb (variant em) v); simpl; rewrite IH; reflexivity. }
  assert (Hnil : forall vs, filter (fun em => String.eqb (variant em) v) vs = []
                            <-> Forall (fun em => variant em <> v) vs).
  { induction vs as [| em r IH]; [split; constructor |]. cbn [filter].
    destruct (String.eqb_spec (variant em) v).
    - split; [discriminate | intros HF; inversion HF; contradiction].
    - rewrite IH. split; [intros HF; constructor; auto | intros HF; inversion HF; auto]. }
  cbn [resolve_python_packaging].
  destruct (BTreeMap.get x (Dist.extension_modules dist)) as [vs |] eqn:Hg; cbn [obind].
  - rewrite Hfm. split.
    + destruct (filter _ vs) eqn:Hf; cbn [map].
      * split; [intros _ vs' E; injection E as <-; apply Hnil, Hf | reflexivity].
      * split; [discriminate |]. intros H. specialize (H vs eq_refl).
        apply Hnil in H. congruence.
    + intros res fs' E. destruct (filter _ vs) as [| e0 r] eqn:Hf; [discriminate |].
      injection E as <- <-. split; [reflexivity |].
      destruct (exists_last (l := e0 :: r) ltac:(discriminate)) as (ems & em & Hl).
      exists vs, ems, em. split; [reflexivity |]. split; [rewrite Hf; exact Hl |].
      split; [rewrite <- Hl; reflexivity |].
      intros st. change (add_ext x e0 :: map (add_ext x) r) with (map (add_ext x) (e0 :: r)).
      rewrite fold_apply_add_ext, Hl, rev_app_distr. reflexivity.
  - split; [split; [intros _ vs' E; discriminate | reflexivity] | discriminate].
Qed.

Lemma extension_variant_entries_witness :
  exists res,
    resolve_python_packaging (test_env 0) tt (PythonPackaging.StdlibExtensionVariant "_io" "alt")
      (Dist.mkPythonDistributionInfo "linux" "3.7.3" "python3"
         [("_io", [ext "_io" true false;
                   mkExtensionModule "_io" None true false "alt" [];
                   mkExtensionModule "_io" (Some "PyInit__io_alt") true false "alt" []])] [])
    = Some (res, tt)
    /\ BTreeMap.get "_io" (extension_modules (fold_left apply_entry res Staging.empty))
       = Some (mkExtensionModule "_io" (Some "PyInit__io_alt") true false "alt" []).
Proof.
  eexists. split; [vm_compute; reflexivity |].
  destruct (proj2 (extension_variant_entries (test_env 0) tt "_io" "alt"
                     (Dist.mkPythonDistributionInfo "linux" "3.7.3" "python3"
                        [("_io", [ext "_io" true false;
                                  mkExtensionModule "_io" None true false "alt" [];
                                  mkExtensionModule "_io" (Some "PyInit__io_alt") true false
                                                    "alt" []])] []))
                  _ tt eq_refl) as [_ (vs & ems & em & Hg & Hf & Hres & Hlast)].
  rewrite Hlast. vm_compute in Hg. injection Hg as <-.
  apply (f_equal (@rev _)) in Hf. rewrite rev_app_distr in Hf.
  cbn [rev app filter variant String.eqb Ascii.eqb Bool.eqb] in Hf.
  injection Hf as Hem _. rewrite <- Hem. reflexivity.
Defined.





(** X11: staging one entry inserts (for [Add]) or deletes (for [Remove])
    the entry's name in the map of its kind only: a later lookup of that
    name gives the new value or nothing, every other name and every other
    map is left as it was, and [read_files] is untouched. *)
Theorem apply_entry_lookup (st : Staging) (e : PythonResourceEntry) (k : string) :
  read_files (apply_entry st e) = read_files st
  /\ match resource e with
     | PythonResource.ExtensionModule n m =>
         BTreeMap.get k (extension_modules (apply_entry st e))
         = (if String.eqb k n
            then match action e with Add => Some m | Remove => None end
            else BTreeMap.get k (extension_modules st))
         /\ sources (apply_entry st e) = sources st
         /\ bytecode_requests (apply_entry st e) = bytecode_requests st
         /\ resources (apply_entry st e) = resources st
     | PythonResource.ModuleSource n s =>
         BTreeMap.get k (sources (apply_entry st e))
         = (if String.eqb k n
            then match action e with Add => Some s | Remove => None end
            else BTreeMap.get k (sources st))
         /\ extension_modules (apply_entry st e) = extension_modules st
         /\ bytecode_requests (apply_entry st e) = bytecode_requests st
         /\ resources (apply_entry st e) = resources st
     | PythonResource.ModuleBytecode n s o =>
         BTreeMap.get k (bytecode_requests (apply_entry st e))
         = (if String.eqb k n
            then match action e with Add => Some (s, o) | Remove => None end
            else BTreeMap.get k (bytecode_requests st))
         /\ extension_modules (apply_entry st e) = extension_modules st
         /\ sources (apply_entry st e) = sources st
         /\ resources (apply_entry st e) = resources st
     | PythonResource.Resource n d =>
         BTreeMap.get k (resources (apply_entry st e))
         = (if String.eqb k n
            then match action e with Add => Some d | Remove => None end
            else BTreeMap.get k (resources st))
         /\ extension_modules (apply_entry st e) = extension_modules st
         /\ sources (apply_entry st e) = sources st
         /\ bytecode_requests (apply_entry st e) = bytecode_requests st
     end.
Proof.
  destruct st as [em src bc rs rf], e as [[|] [n m | n s | n s o | n d]];
    cbn [apply_entry action resource extension_modules sources bytecode_requests resources
         read_files];
    (split; [reflexivity |]);
    repeat split;
    first [rewrite get_insert | rewrite get_remove];
    destruct (String.eqb k n); reflexivity.
Qed.

Lemma get_filter_key {V} (p : string -> bool) (k : string) (m : BTreeMap.t V) :
  BTreeMap.get k (filter (fun kv => p (fst kv)) m) = if p k then BTreeMap.get k m else None.
Proof.
  induction m as [| [k' v'] r IH]; simpl; [destruct (p k); reflexivity |].
  destruct (p k') eqn:Hp; simpl.
  - rewrite IH. destruct (String.eqb_spec k k') as [-> |]; [rewrite Hp |]; reflexivity.
  - rewrite IH. destruct (String.eqb_spec k k') as [-> |]; [rewrite Hp |]; reflexivity.
Qed.

(** X12: applying a whitelist to the staging state keeps, in each of the
    four maps, exactly the names the whitelist contains, with their values
    unchanged, and leaves [read_files] untouched. *)
Theorem filter_staging_lookup (st : Staging) (f : BTreeSet.t) (k : string) :
  read_files (filter_staging st f) = read_files st
  /\ BTreeMap.get k (extension_modules (filter_staging st f))
     = (if BTreeSet.contains f k then BTreeMap.get k (extension_modules st) else None)
  /\ BTreeMap.get k (sources (filter_staging st f))
     = (if BTreeSet.contains f k then BTreeMap.get k (sources st) else None)
  /\ BTreeMap.get k (bytecode_requests (filter_staging st f))
     = (if BTreeSet.contains f k then BTreeMap.get k (bytecode_requests st) else None)
  /\ BTreeMap.get k (resources (filter_staging st f))
     = (if BTreeSet.contains f k then BTreeMap.get k (resources st) else None).
Proof.
  unfold filter_staging.
  cbn [read_files extension_modules sources bytecode_requests resources].
  rewrite !filter_btreemap_spec, !(get_filter_key (BTreeSet.contains f)).
  repeat split.
Qed.

(* ------------------------------------------------------------------ *)
(** ** The key order of the staging maps *)

Lemma str_lt_compare (a b : string) : str_lt a b <-> String.compare a b = Lt.
Proof. unfold str_lt, String.ltb. destruct (String.compare a b); split; congruence. Qed.

Lemma str_lt_trans (a b c : string) : str_lt a b -> str_lt b c -> str_lt a c.
Proof.
  rewrite !str_lt_compare. intros H1 H2.
  apply OrderedTypeEx.String_as_OT.cmp_lt.
  apply OrderedTypeEx.String_as_OT.cmp_lt in H1, H2.
  exact (OrderedTypeEx.String_as_OT.lt_trans _ _ _ H1 H2).
Qed.

Lemma str_lt_irrefl (a : string) : ~ str_lt a a.
Proof. rewrite str_lt_compare, string_compare_refl. discriminate. Qed.

Lemma compare_gt_lt (a b : string) : String.compare a b = Gt -> str_lt b a.
Proof.
  intros H. apply str_lt_compare. rewrite String.compare_antisym, H. reflexivity.
Qed.

Lemma Forall_str_lt_trans (a b : string) (l : list string) :
  str_lt a b -> Forall (str_lt b) l -> Forall (str_lt a) l.
Proof.
  intros Hab HF. eapply Forall_impl; [| exact HF]. intros c Hbc. exact (str_lt_trans _ _ _ Hab Hbc).
Qed.







Lemma set_insert_Forall (P : string -> Prop) (k : string) (s : BTreeSet.t) :
  Forall P s -> P k -> Forall P (BTreeSet.insert k s).
Proof.
  induction s as [| k' r IH]; intros HF Hk; simpl; [constructor; auto |].
  inversion HF; subst. destruct (String.compare k k'); repeat constructor; auto.
Qed.

Lemma set_insert_sorted (k : string) (s : BTreeSet.t) :
  StronglySorted str_lt s -> StronglySorted str_lt (BTreeSet.insert k s).
Proof.
  induction s as [| k' r IH]; intros Hs; simpl; [repeat constructor |].
  inversion Hs as [| ? ? Hr Hk']; subst.
  destruct (String.compare k k') eqn:Hc.
  - exact Hs.
  - constructor; [exact Hs |]. constructor; [apply str_lt_compare, Hc |].
    apply (Forall_str_lt_trans _ k'); [apply str_lt_compare, Hc | exact Hk'].
  - constructor; [apply IH, Hr |].
    apply set_insert_Forall; [exact Hk' | apply compare_gt_lt, Hc].
Qed.













Lemma contains_key_keys {V} (n : string) (m : BTreeMap.t V) :
  BTreeMap.contains_key n m = existsb (String.eqb n) (BTreeMap.keys m).
Proof.
  unfold BTreeMap.contains_key. induction m as [| [k v] r IH]; simpl; [reflexivity |].
  destruct (String.eqb n k); [reflexivity | exact IH].
Qed.

(** X14: a name is in the [all_modules] set [resolve_python_resources]
    returns exactly when it has a staged source or a compiled bytecode. *)
Theorem resolve_all_modules_union {FS} (env : Env FS) fs config dist r :
  resolve_python_resources env fs config dist = Some r ->
  forall n, BTreeSet.contains (PythonResources.all_modules r) n
            = BTreeMap.contains_key n (PythonResources.module_sources r)
              || BTreeMap.contains_key n (PythonResources.module_bytecodes r).
Proof.
  unfold resolve_python_resources, obind.
  destruct (process_rules env dist fs (python_packaging config) Staging.empty) as [st |];
    [| discriminate].
  destruct (add_required (Dist.extension_modules dist) (extension_modules st)); [| discriminate].
  destruct (compile_requests env (bytecode_requests st) BTreeMap.empty) as [bs |];
    [| discriminate].
  intros E n. injection E as <-.
  cbn [PythonResources.module_sources PythonResources.module_bytecodes
       PythonResources.all_modules].
  unfold BTreeSet.extend. rewrite !contains_fold_insert, !contains_key_keys.
  cbn [BTreeSet.contains BTreeSet.empty existsb].
  destruct (existsb (String.eqb n) (BTreeMap.keys (sources st))),
           (existsb (String.eqb n) (BTreeMap.keys bs)); reflexivity.
Qed.

Lemma resolve_all_modules_union_witness :
  exists r,
    resolve_python_resources (test_env 0) tt
      (mkConfig [PythonPackaging.Stdlib 0 false false]) (test_dist "3.7.3") = Some r
    /\ BTreeSet.contains (PythonResources.all_modules r) "json"
       = BTreeMap.contains_key "json" (PythonResources.module_sources r)
         || BTreeMap.contains_key "json" (PythonResources.module_bytecodes r).
Proof.
  eexists. split; [vm_compute; reflexivity |].
  apply (resolve_all_modules_union (test_env 0) tt
           (mkConfig [PythonPackaging.Stdlib 0 false false]) (test_dist "3.7.3") _ eq_refl).
Defined.

Lemma get_Forall_lt_none {V} (n : string) (m : BTreeMap.t V) :
  Forall (str_lt n) (BTreeMap.keys m) -> BTreeMap.get n m = None.
Proof.
  induction m as [| [k v] r IH]; intros HF; simpl; [reflexivity |].
  inversion HF as [| ? ? Hk Hr]; subst.
  destruct (String.eqb_spec n k) as [-> |]; [exfalso; exact (str_lt_irrefl _ Hk) |].
  apply IH, Hr.
Qed.

(** X15: the bytecode loop of [resolve_python_resources] panics exactly
    when the compiler fails on some request; when it returns, for
    requests with distinct names (as staged), each requested name maps to
    the compiler's output on that request's source, name and
    optimization level, and every other name keeps what it had. *)
Theorem compile_requests_result {FS} (env : Env FS) reqs acc :
  (compile_requests env reqs acc = None
   <-> exists n s o, In (n, (s, o)) reqs /\ compile env s n o = None)
  /\ (forall bs, compile_requests env reqs acc = Some bs -> BTreeMap.wf reqs ->
      forall n, BTreeMap.get n bs
                = match BTreeMap.get n reqs with
                  | Some (s, o) => compile env s n o
                  | None => BTreeMap.get n acc
                  end).
Proof.
  split.
  - revert acc. induction reqs as [| [n [s o]] r IH]; intros acc; cbn [compile_requests].
    + split; [discriminate | intros (? & ? & ? & [] & _)].
    + unfold obind. destruct (compile env s n o) as [b |] eqn:Hc.
      * rewrite IH. split.
        -- intros (n' & s' & o' & Hin & Hc'). exists n', s', o'. split; [right |]; assumption.
        -- intros (n' & s' & o' & [E | Hin] & Hc').
           ++ injection E as -> -> ->. congruence.
           ++ eauto.
      * split; [intros _ | reflexivity]. exists n, s, o. split; [left |]; auto.
  - intros bs H Hwf. revert acc H.
    induction reqs as [| [n [s o]] r IH]; intros acc H k; cbn [compile_requests] in H.
    + injection H as <-. reflexivity.
    + unfold BTreeMap.wf in Hwf. cbn [BTreeMap.keys map fst] in Hwf.
      inversion Hwf as [| ? ? Hr Hn]; subst.
      unfold obind in H. destruct (compile env s n o) as [b |] eqn:Hc; [| discriminate].
      rewrite (IH Hr _ H k), get_insert. cbn [BTreeMap.get].
      destruct (String.eqb_spec k n) as [-> |].
      * rewrite (get_Forall_lt_none n r Hn), Hc. reflexivity.
      * reflexivity.
Qed.





Lemma resolve_python_packaging_only_adds_witness :
  exists res fs',
    resolve_python_packaging (test_env 0) tt (PythonPackaging.Stdlib 0 false true)
      (test_dist "3.7.3") = Some (res, fs')
    /\ Forall (fun e => action e = Add) res.
Proof.
  do 2 eexists. split; [vm_compute; reflexivity |].
  apply (resolve_python_packaging_only_adds (test_env 0) tt (PythonPackaging.Stdlib 0 false true)
           (test_dist "3.7.3") _ _ eq_refl).
Defined.

Lemma fold_apply_entry_read_files (entries : list PythonResourceEntry) (st : Staging) :
  read_files (fold_left apply_entry entries st) = read_files st.
Proof.
  revert st. induction entries as [| e r IH]; intros st; simpl; [reflexivity |].
  rewrite IH. destruct st as [em src bc rs rf], e as [[|] [n m | n s | n s o | n d]];
    reflexivity.
Qed.

Lemma process_rules_read_files {FS} (env : Env FS) dist rules :
  Forall not_glob_rule rules ->
  forall fs st st', process_rules env dist fs rules st = Some st' ->
  read_files st' = read_files st ++ flat_map file_rule_path rules.
Proof.
  induction rules as [| p r IH]; intros HF fs st st' H; cbn [process_rules] in H.
  - injection H as <-. rewrite app_nil_r. reflexivity.
  - inversion HF as [| ? ? Hp Hr]; subst.
    unfold process_rule, obind in H.
    destruct (resolve_python_packaging env fs p dist) as [[entries fs1] |]; [| discriminate].
    destruct (apply_filter_rule env fs1 p (fold_left apply_entry entries st)) as [st1 |] eqn:Ha;
      [| discriminate].
    rewrite (IH Hr _ _ _ H). cbn [flat_map]. rewrite app_assoc. f_equal.
    destruct p; cbn [apply_filter_rule file_rule_path] in Ha |- *;
      try (injection Ha as <-; rewrite fold_apply_entry_read_files, app_nil_r; reflexivity).
    + unfold obind in Ha. destruct (read_names_or_panic _ _ _); [| discriminate].
      injection Ha as <-. cbn [read_files filter_staging].
      rewrite fold_apply_entry_read_files. reflexivity.
    + contradiction.
Qed.

(** X17: when no FilterFilesInclude rule is configured, the files
    [resolve_python_resources] reports as read are the paths of the
    FilterFileInclude rules, one per rule and in rule order (duplicates
    kept). *)
Theorem resolve_read_files_file_rules {FS} (env : Env FS) fs config dist r :
  Forall not_glob_rule (python_packaging config) ->
  resolve_python_resources env fs config dist = Some r ->
  PythonResources.read_files r = flat_map file_rule_path (python_packaging config).
Proof.
  intros HF. unfold resolve_python_resources, obind.
  destruct (process_rules env dist fs (python_packaging config) Staging.empty) as [st |] eqn:Hp;
    [| discriminate].
  destruct (add_required _ _); [| discriminate].
  destruct (compile_requests _ _ _); [| discriminate].
  intros E. injection E as <-. cbn [PythonResources.read_files].
  exact (process_rules_read_files env dist _ HF fs Staging.empty st Hp).
Qed.

Lemma resolve_read_files_file_rules_witness :
  exists r,
    resolve_python_resources (test_env 0) tt
      (mkConfig [PythonPackaging.Stdlib 0 false false; PythonPackaging.FilterFileInclude "a.txt";
                 PythonPackaging.FilterFileInclude "a.txt"])
      (test_dist "3.7.3") = Some r
    /\ PythonResources.read_files r = [path_from "a.txt"; path_from "a.txt"].
Proof.
  eexists. split; [vm_compute; reflexivity |].
  apply (resolve_read_files_file_rules (test_env 0) tt
    (mkConfig [PythonPackaging.Stdlib 0 false false; PythonPackaging.FilterFileInclude "a.txt";
               PythonPackaging.FilterFileInclude "a.txt"])
    (test_dist "3.7.3") _); [repeat constructor | vm_compute; reflexivity].
Defined.

(* ================================================================== *)
(** * Properties of the blob files, the linker and the config lookup *)

Lemma for_each_io_rel {W A} (R : W -> list byte -> Prop) (xs : list A)
      (body : W -> A -> io_result W) (f : A -> list byte) (d : W) (c : list byte) :
  R d c ->
  (forall d c x, R d c -> exists d', body d x = Ok d' /\ R d' (c ++ f x)) ->
  exists d', for_each_io d xs body = Ok d' /\ R d' (c ++ List.concat (map f xs)).
Proof.
  intros HR Hbody. revert d c HR. induction xs as [| x r IH]; intros d c HR; simpl.
  - exists d. rewrite app_nil_r. auto.
  - destruct (Hbody d c x HR) as (d1 & -> & HR1). simpl.
    destruct (IH d1 _ HR1) as (d2 & Hd2 & HR2). exists d2. rewrite app_assoc. auto.
Qed.

(** Over a writer that appends, [write_blob_entries] appends the blob. *)
Lemma write_blob_entries_rel {W} `{Write W} (R : W -> list byte -> Prop) :
  (forall d c bs, R d c -> exists d', write_all d bs = Ok d' /\ R d' (c ++ bs)) ->
  forall d c entries, R d c ->
  exists d', write_blob_entries d entries = Ok d' /\ R d' (c ++ blob_layout entries).
Proof.
  intros Hw d c entries HR. unfold write_blob_entries, write_u32_le.
  destruct (Hw _ _ (u32_le (as_u32 (Z.of_nat (List.length entries)))) HR) as (d1 & -> & HR1).
  cbn [io_bind]. rewrite u32_le_as_u32 in HR1.
  destruct (for_each_io_rel R entries (fun d entry =>
      d <- write_all d (u32_le (as_u32 (Z.of_nat (List.length (as_bytes (name entry)))))) ;;
      write_all d (u32_le (as_u32 (Z.of_nat (List.length (data entry))))))
      (fun e => u32_le (Z.of_nat (List.length (as_bytes (name e))))
                ++ u32_le (Z.of_nat (List.length (data e)))) d1 _ HR1)
    as (d2 & -> & HR2).
  { intros d' c' x HR'.
    destruct (Hw _ _ (u32_le (as_u32 (Z.of_nat (List.length (as_bytes (name x)))))) HR')
      as (d3 & -> & HR3). cbn [io_bind].
    destruct (Hw _ _ (u32_le (as_u32 (Z.of_nat (List.length (data x))))) HR3)
      as (d4 & -> & HR4).
    exists d4. split; [reflexivity |]. rewrite !u32_le_as_u32, <- app_assoc in HR4. exact HR4. }
  cbn [io_bind].
  destruct (for_each_io_rel R entries (fun d entry => write_all d (as_bytes (name entry)))
              (fun e => as_bytes (name e)) d2 _ HR2) as (d3 & -> & HR3).
  { intros d' c' x HR'. apply Hw, HR'. }
  cbn [io_bind].
  destruct (for_each_io_rel R entries (fun d entry => write_all d (data entry)) data d3 _ HR3)
    as (d4 & -> & HR4).
  { intros d' c' x HR'. apply Hw, HR'. }
  cbn [io_bind]. exists d4. split; [reflexivity |].
  unfold blob_layout. rewrite !app_assoc. exact HR4.
Qed.

Lemma path_eqb_spec (p q : PathBuf) : path_eqb p q = true <-> p = q.
Proof.
  unfold path_eqb. destruct (list_eq_dec string_dec p q); split; congruence.
Qed.

Lemma path_eqb_refl (p : PathBuf) : path_eqb p p = true.
Proof. apply path_eqb_spec. reflexivity. Qed.

Lemma path_eqb_neq (p q : PathBuf) : p <> q -> path_eqb p q = false.
Proof.
  intros Hne. destruct (path_eqb p q) eqn:E; [| reflexivity].
  apply path_eqb_spec in E. contradiction.
Qed.

Lemma posix_write_step (st0 : Store) (p : PathBuf) (fh : File) (c bs : list byte) :
  open_at st0 p fh c ->
  exists fh', @write_all File (write_file posix_write) fh bs = Ok fh'
              /\ open_at st0 p fh' (c ++ bs).
Proof.
  intros (Hp & Hc & Ho). subst p. cbv [write_all write_file posix_write]. rewrite Hc.
  cbn [io_bind]. eexists. split; [reflexivity |].
  unfold open_at, store_set. cbn [file_path file_store]. rewrite path_eqb_refl.
  repeat split. intros q Hq. rewrite path_eqb_neq by exact Hq. apply Ho, Hq.
Qed.

Lemma posix_create_open (st : Store) (p : PathBuf) :
  exists fh, create_or_panic posix_create st p = Some fh /\ open_at st p fh [].
Proof.
  eexists. split; [reflexivity |]. unfold open_at, store_set; cbn [file_path file_store].
  rewrite path_eqb_refl. repeat split. intros q Hq. rewrite path_eqb_neq by exact Hq.
  reflexivity.
Qed.

Lemma write_module_names_posix (st0 : Store) (p : PathBuf) (names : list string) :
  forall fh c, open_at st0 p fh c ->
  exists fh', write_module_names posix_write fh names = Some fh'
              /\ open_at st0 p fh' (c ++ List.concat (map (fun n => as_bytes n ++ [x0a]) names)).
Proof.
  induction names as [| n r IH]; intros fh c Ho; cbn [write_module_names].
  - exists fh. rewrite app_nil_r. auto.
  - destruct (posix_write_step _ _ _ _ (as_bytes n) Ho) as (fh1 & -> & Ho1).
    cbn [io_expect obind].
    destruct (posix_write_step _ _ _ _ [x0a] Ho1) as (fh2 & -> & Ho2).
    cbn [io_expect obind].
    destruct (IH _ _ Ho2) as (fh3 & -> & Ho3). exists fh3. split; [reflexivity |].
    cbn [map List.concat]. rewrite !app_assoc. exact Ho3.
Qed.

Lemma write_blob_entries_posix (st0 : Store) (p : PathBuf) (entries : list BlobEntry)
      (fh : File) (c : list byte) :
  open_at st0 p fh c ->
  exists fh', write_blob_entries (H := write_file posix_write) fh entries = Ok fh'
              /\ open_at st0 p fh' (c ++ blob_layout entries).
Proof.
  apply (write_blob_entries_rel (H := write_file posix_write) (fun d c => open_at st0 p d c)).
  intros d c' bs Ho. apply posix_write_step, Ho.
Qed.

(** X18: on a file system where [create] truncates and [write] appends,
    [write_blobs] does not panic; the bytecode file holds the blob of
    [module_bytecodes], the sources file the blob of [module_sources]
    unless the bytecode file is the same path, the names file every name
    of [all_modules] followed by a newline unless one of the later files
    is the same path, and every other file is left as it was. *)
Theorem write_blobs_contents (st : Store) (r : PythonResources.PythonResources)
        (module_names_path modules_path bytecodes_path : PathBuf) :
  exists st',
    write_blobs posix_create posix_write st r module_names_path modules_path bytecodes_path
    = Some st'
    /\ st' bytecodes_path = Some (blob_layout (bytecodes_blob r))
    /\ (modules_path <> bytecodes_path ->
        st' modules_path = Some (blob_layout (sources_blob r)))
    /\ (module_names_path <> modules_path -> module_names_path <> bytecodes_path ->
        st' module_names_path
        = Some (List.concat (map (fun n => as_bytes n ++ [x0a]) (PythonResources.all_modules r))))
    /\ (forall q, q <> module_names_path -> q <> modules_path -> q <> bytecodes_path ->
        st' q = st q).
Proof.
  unfold write_blobs.
  destruct (posix_create_open st module_names_path) as (fh1 & -> & Ho1). cbn [obind].
  destruct (write_module_names_posix _ _ (PythonResources.all_modules r) _ _ Ho1)
    as (fh2 & -> & Ho2). cbn [obind].
  destruct (posix_create_open (file_store fh2) modules_path) as (fh3 & -> & Ho3).
  cbn [obind].
  destruct (write_blob_entries_posix _ _ (sources_blob r) _ _ Ho3) as (fh4 & -> & Ho4).
  cbn [io_expect obind].
  destruct (posix_create_open (file_store fh4) bytecodes_path) as (fh5 & -> & Ho5).
  cbn [obind].
  destruct (write_blob_entries_posix _ _ (bytecodes_blob r) _ _ Ho5) as (fh6 & -> & Ho6).
  cbn [io_expect obind].
  eexists. split; [reflexivity |].
  destruct Ho2 as (_ & Hc2 & Hr2), Ho4 as (_ & Hc4 & Hr4), Ho6 as (_ & Hc6 & Hr6).
  split; [exact Hc6 |]. split; [| split].
  - intros H23. rewrite (Hr6 _ H23). exact Hc4.
  - intros H12 H13. rewrite (Hr6 _ H13), (Hr4 _ H12). exact Hc2.
  - intros q H1 H2 H3. rewrite (Hr6 _ H3), (Hr4 _ H2), (Hr2 _ H1). reflexivity.
Qed.

(** ** Facts about [str::split] and [join] *)

Lemma append_nil_r (s : string) : s +++ EmptyString = s.
Proof. induction s as [| x s IH]; cbn; [reflexivity | rewrite IH; reflexivity]. Qed.

Lemma split_char_cons (c : ascii) (s : string) :
  exists w ws, split_char c s = w :: ws.
Proof.
  destruct s as [| x r]; cbn [split_char]; [eauto |].
  destruct (Ascii.eqb x c); [eauto |].
  destruct (split_char c r); eauto.
Qed.

Lemma split_char_no_char (c : ascii) (s : string) : Forall (no_char c) (split_char c s).
Proof.
  induction s as [| x r IH]; cbn [split_char].
  - constructor; [intros [] | constructor].
  - destruct (Ascii.eqb x c) eqn:Hx.
    + constructor; [intros [] | exact IH].
    + apply Ascii.eqb_neq in Hx.
      destruct (split_char c r) as [| w ws].
      * constructor; [| constructor]. intros [E | []]. congruence.
      * inversion IH as [| ? ? Hw Hws]; subst. constructor; [| exact Hws].
        intros [E | Hin]; [congruence | exact (Hw Hin)].
Qed.

Lemma concat_cons_char (sep : string) (x : ascii) (w : string) (ws : list string) :
  String.concat sep (String x w :: ws) = String x (String.concat sep (w :: ws)).
Proof. destruct ws; reflexivity. Qed.

Lemma concat_split_char (c : ascii) (s : string) :
  String.concat (String c EmptyString) (split_char c s) = s.
Proof.
  induction s as [| x r IH]; cbn [split_char]; [reflexivity |].
  destruct (Ascii.eqb x c) eqn:Hx.
  - apply Ascii.eqb_eq in Hx. subst x.
    destruct (split_char_cons c r) as (w & ws & Hs). rewrite Hs in IH |- *.
    change (String.concat (String c EmptyString) (EmptyString :: w :: ws))
      with (String c EmptyString +++ String.concat (String c EmptyString) (w :: ws)).
    rewrite IH. reflexivity.
  - destruct (split_char_cons c r) as (w & ws & Hs). rewrite Hs in IH |- *.
    rewrite concat_cons_char, IH. reflexivity.
Qed.

Lemma split_char_app (c : ascii) (x s : string) :
  no_char c x ->
  split_char c (x +++ s) = match split_char c s with
                           | w :: ws => (x +++ w) :: ws
                           | [] => [x]
                           end.
Proof.
  induction x as [| a x IH]; intros Hx; cbn [String.append split_char].
  - destruct (split_char_cons c s) as (w & ws & ->). reflexivity.
  - destruct (Ascii.eqb a c) eqn:Ha.
    + exfalso. apply Hx. left. apply Ascii.eqb_eq in Ha. exact Ha.
    + rewrite IH by (intros Hin; apply Hx; right; exact Hin).
      destruct (split_char_cons c s) as (w & ws & ->). reflexivity.
Qed.

Lemma split_char_concat (c : ascii) (ls : list string) :
  ls <> [] -> Forall (no_char c) ls ->
  split_char c (String.concat (String c EmptyString) ls) = ls.
Proof.
  induction ls as [| x r IH]; intros Hne HF; [contradiction |].
  inversion HF as [| ? ? Hx Hr]; subst.
  destruct r as [| y r].
  - cbn [String.concat]. rewrite <- (append_nil_r x).
    rewrite split_char_app by exact Hx. reflexivity.
  - change (String.concat (String c EmptyString) (x :: y :: r))
      with (x +++ String c EmptyString +++ String.concat (String c EmptyString) (y :: r)).
    rewrite split_char_app by exact Hx. cbn [String.append split_char].
    rewrite Ascii.eqb_refl, IH by (discriminate || exact Hr).
    rewrite append_nil_r. reflexivity.
Qed.

Lemma as_bytes_append (a b : string) : as_bytes (a +++ b) = as_bytes a ++ as_bytes b.
Proof.
  unfold as_bytes, list_byte_of_string. rewrite <- map_app. f_equal.
  induction a as [| x a IH]; simpl; [reflexivity |]. rewrite IH. reflexivity.
Qed.

(** X19: on a file system where [create] truncates and [write] appends,
    [write_data_rs] writes the [use] line, the function header, the
    config with every line indented by four spaces and the closing brace,
    and touches no other file; the indentation keeps the lines: the
    lines of the indented text are the config's lines each prefixed by
    four spaces, and joining the config's lines gives it back. *)
Theorem write_data_rs_contents (st : Store) (path : PathBuf) (python_config_rs : string) :
  let indented := String.concat nl (map (fun line => "    " +++ line)
                                        (split_char "010"%char python_config_rs)) in
  (exists st',
      write_data_rs_file posix_create posix_write st path python_config_rs = Some st'
      /\ st' path = Some (as_bytes ("use super::config::{PythonConfig, PythonRunMode};"
                                   +++ nl +++ nl
                                   +++ "pub fn default_python_config() -> PythonConfig {"
                                   +++ nl +++ indented +++ nl +++ "}" +++ nl))
      /\ forall q, q <> path -> st' q = st q)
  /\ split_char "010"%char indented
     = map (fun line => "    " +++ line) (split_char "010"%char python_config_rs)
  /\ String.concat nl (split_char "010"%char python_config_rs) = python_config_rs.
Proof.
  intros indented. split; [| split].
  - unfold write_data_rs_file. fold indented.
    destruct (posix_create_open st path) as (fh1 & -> & Ho1). cbn [obind].
    edestruct posix_write_step as (fh2 & -> & Ho2); [exact Ho1 |]. cbn [io_expect obind].
    edestruct posix_write_step as (fh3 & -> & Ho3); [exact Ho2 |]. cbn [io_expect obind].
    edestruct posix_write_step as (fh4 & -> & Ho4); [exact Ho3 |]. cbn [io_expect obind].
    edestruct posix_write_step as (fh5 & -> & Ho5); [exact Ho4 |]. cbn [io_expect obind].
    eexists. split; [reflexivity |]. destruct Ho5 as (_ & Hc & Hr). split; [| exact Hr].
    rewrite Hc. f_equal. rewrite !as_bytes_append. cbn [app]. rewrite <- !app_assoc.
    reflexivity.
  - unfold indented. apply split_char_concat.
    + destruct (split_char_cons "010"%char python_config_rs) as (w & ws & ->). discriminate.
    + apply Forall_map. refine (Forall_impl _ _ (split_char_no_char _ _)).
      intros l Hl Hin. apply Hl.
      cbn [String.append list_ascii_of_string] in Hin.
      destruct Hin as [E | [E | [E | [E | Hin]]]]; [discriminate .. | exact Hin].
  - apply concat_split_char.
Qed.

(** X20: [derive_importlib] panics when the distribution lacks
    [importlib._bootstrap] or [importlib._bootstrap_external]; it returns
    [d] exactly when [d]'s bootstrap source is the file of the first
    module, [d]'s external source is the file of the second followed by
    the end-of-file marker and then the memory importer, and each
    bytecode is the compiler's output on its source at optimization
    level 0 under the names [<frozen importlib._bootstrap>] and
    [<frozen importlib._bootstrap_external>]. *)
Theorem derive_importlib_spec {FS} (env : Env FS) (importer : list byte) fs dist :
  (BTreeMap.get "importlib._bootstrap" (Dist.py_modules dist) = None
   \/ BTreeMap.get "importlib._bootstrap_external" (Dist.py_modules dist) = None ->
   derive_importlib env importer fs dist = None)
  /\ forall d, derive_importlib env importer fs dist = Some d
     <-> exists p1 p2 orig,
         BTreeMap.get "importlib._bootstrap" (Dist.py_modules dist) = Some p1
         /\ BTreeMap.get "importlib._bootstrap_external" (Dist.py_modules dist) = Some p2
         /\ fs_read env fs p1 = Some (bootstrap_source d)
         /\ compile env (bootstrap_source d) "<frozen importlib._bootstrap>" 0
            = Some (bootstrap_bytecode d)
         /\ fs_read env fs p2 = Some orig
         /\ bootstrap_external_source d = orig ++ as_bytes bootstrap_external_marker ++ importer
         /\ compile env (bootstrap_external_source d) "<frozen importlib._bootstrap_external>" 0
            = Some (bootstrap_external_bytecode d).
Proof.
  unfold derive_importlib. split.
  - intros [-> | ->]; [reflexivity |]. unfold obind.
    destruct (BTreeMap.get "importlib._bootstrap" _); reflexivity.
  - intros d. unfold obind. split.
    + destruct (BTreeMap.get "importlib._bootstrap" _) as [p1 |]; [| discriminate].
      destruct (BTreeMap.get "importlib._bootstrap_external" _) as [p2 |]; [| discriminate].
      destruct (fs_read env fs p1) as [s1 |] eqn:H1; [| discriminate].
      destruct (compile env s1 _ 0) as [b1 |] eqn:Hb1; [| discriminate].
      destruct (fs_read env fs p2) as [s2 |] eqn:H2; [| discriminate].
      set (src := (s2 ++ as_bytes bootstrap_external_marker) ++ importer).
      destruct (compile env src _ 0) as [b2 |] eqn:Hb2; [| discriminate].
      intros E. injection E as <-. cbn [bootstrap_source bootstrap_bytecode
        bootstrap_external_source bootstrap_external_bytecode].
      exists p1, p2, s2. repeat split; try assumption.
      unfold src. rewrite app_assoc. reflexivity.
    + intros (p1 & p2 & orig & -> & -> & H1 & Hb1 & H2 & He & Hb2).
      rewrite H1, Hb1, H2. rewrite app_assoc in He. rewrite <- He, Hb2.
      destruct d; reflexivity.
Qed.

(** ** Facts about the linker's loops *)

Lemma set_In_insert (k x : string) (s : BTreeSet.t) :
  In x (BTreeSet.insert k s) <-> k = x \/ In x s.
Proof.
  induction s as [| k' r IH]; simpl; [tauto |].
  destruct (String.compare k k') eqn:Hc.
  - apply String.compare_eq_iff in Hc. subst k'. simpl. tauto.
  - simpl. tauto.
  - simpl. rewrite IH. tauto.
Qed.

Lemma fold_needed_In {E} (step : Needed -> E -> Needed) (proj : Needed -> BTreeSet.t)
      (P : E -> bool) (nm : E -> string) :
  (forall nd e, proj (step nd e) = if P e then BTreeSet.insert (nm e) (proj nd) else proj nd) ->
  forall es nd x,
    In x (proj (fold_left step es nd))
    <-> In x (proj nd) \/ exists e, In e es /\ P e = true /\ nm e = x.
Proof.
  intros Hstep es. induction es as [| e r IH]; intros nd x; simpl.
  - split; [tauto | intros [H | (? & [] & _)]; exact H].
  - rewrite IH, Hstep. destruct (P e) eqn:Hp.
    + rewrite set_In_insert. split.
      * intros [[<- | H] | (e' & He' & Hp' & <-)]; [right; exists e | left | right; exists e'];
          auto.
      * intros [H | (e' & [<- | He'] & Hp' & <-)]; [left; right | left; left | right; exists e'];
          auto.
    + split.
      * intros [H | (e' & He' & Hp' & <-)]; [left | right; exists e']; auto.
      * intros [H | (e' & [<- | He'] & Hp' & <-)]; [left | congruence | right; exists e'];
          auto.
Qed.

Lemma fold_needed_sorted {E} (step : Needed -> E -> Needed) (proj : Needed -> BTreeSet.t)
      (P : E -> bool) (nm : E -> string) :
  (forall nd e, proj (step nd e) = if P e then BTreeSet.insert (nm e) (proj nd) else proj nd) ->
  forall es nd, StronglySorted str_lt (proj nd) ->
  StronglySorted str_lt (proj (fold_left step es nd)).
Proof.
  intros Hstep es. induction es as [| e r IH]; intros nd Hs; simpl; [exact Hs |].
  apply IH. rewrite Hstep. destruct (P e); [apply set_insert_sorted |]; exact Hs.
Qed.

Lemma core_link_frameworks nd e :
  needed_frameworks (core_link nd e)
  = if Link.framework e then BTreeSet.insert (Link.name e) (needed_frameworks nd)
    else needed_frameworks nd.
Proof. unfold core_link. destruct (Link.framework e), (Link.system e); reflexivity. Qed.

Lemma core_link_system nd e :
  needed_system_libraries (core_link nd e)
  = if negb (Link.framework e) && Link.system e
    then BTreeSet.insert (Link.name e) (needed_system_libraries nd)
    else needed_system_libraries nd.
Proof. unfold core_link. destruct (Link.framework e), (Link.system e); reflexivity. Qed.

Lemma core_link_libraries nd e :
  needed_libraries (core_link nd e)
  = if false then BTreeSet.insert (Link.name e) (needed_libraries nd) else needed_libraries nd.
Proof. unfold core_link. destruct (Link.framework e), (Link.system e); reflexivity. Qed.

Lemma extension_link_frameworks nd e :
  needed_frameworks (extension_link nd e)
  = if Link.framework e then BTreeSet.insert (Link.name e) (needed_frameworks nd)
    else needed_frameworks nd.
Proof.
  unfold extension_link.
  destruct (Link.framework e), (Link.system e), (Link.static_path e), (Link.dynamic_path e);
    reflexivity.
Qed.

Lemma extension_link_system nd e :
  needed_system_libraries (extension_link nd e)
  = if negb (Link.framework e) && Link.system e
    then BTreeSet.insert (Link.name e) (needed_system_libraries nd)
    else needed_system_libraries nd.
Proof.
  unfold extension_link.
  destruct (Link.framework e), (Link.system e), (Link.static_path e), (Link.dynamic_path e);
    reflexivity.
Qed.

Lemma extension_link_libraries nd e :
  needed_libraries (extension_link nd e)
  = if negb (Link.framework e) && negb (Link.system e)
       && (is_some (Link.static_path e) || is_some (Link.dynamic_path e))
    then BTreeSet.insert (Link.name e) (needed_libraries nd)
    else needed_libraries nd.
Proof.
  unfold extension_link.
  destruct (Link.framework e), (Link.system e), (Link.static_path e), (Link.dynamic_path e);
    reflexivity.
Qed.

(** The extension loop is the link loop over the links of the
    non-builtin_default extensions, in name order. *)
Lemma fold_extension_inputs (object_paths : ExtensionModule -> list PathBuf)
      (em_links : ExtensionModule -> list Link.LibraryDepends)
      (ext : BTreeMap.t ExtensionModule) (objects : list PathBuf) (nd : Needed) :
  fold_left (extension_inputs object_paths em_links) ext (objects, nd)
  = (objects ++ List.concat (map (fun '(_, em) => if builtin_default em then []
                                                  else object_paths em) ext),
     fold_left extension_link
               (List.concat (map (fun '(_, em) => if builtin_default em then []
                                                  else em_links em) ext)) nd).
Proof.
  revert objects nd. induction ext as [| [n em] r IH]; intros objects nd; simpl.
  - rewrite app_nil_r. reflexivity.
  - destruct (builtin_default em); simpl; rewrite IH; [reflexivity |].
    rewrite fold_left_app, app_assoc. reflexivity.
Qed.

Lemma in_ext_links (em_links : ExtensionModule -> list Link.LibraryDepends)
      (ext : BTreeMap.t ExtensionModule) (e : Link.LibraryDepends) :
  In e (List.concat (map (fun '(_, em) => if builtin_default em then [] else em_links em) ext))
  <-> exists n em, In (n, em) ext /\ builtin_default em = false /\ In e (em_links em).
Proof.
  rewrite in_concat. split.
  - intros (l & Hl & He). apply in_map_iff in Hl as ([n em] & <- & Hin).
    destruct (builtin_default em) eqn:Hb; [destruct He |]. exists n, em. auto.
  - intros (n & em & Hin & Hb & He). exists (em_links em). split; [| exact He].
    apply in_map_iff. exists (n, em). rewrite Hb. auto.
Qed.

Lemma copy_libraries_Some {FS} (env : Env FS) (lenv : LinkEnv FS) fs out_dir m libs md fs' md' :
  copy_libraries env lenv fs out_dir m libs md = Some (fs', md') ->
  md' = md ++ map (fun l => "cargo:rustc-link-lib=static=" +++ l)
                  (filter (fun l => negb (existsb (String.eqb l) (OS_IGNORE_LIBRARIES (target_os env))))
                          libs)
  /\ forall l, In l libs -> existsb (String.eqb l) (OS_IGNORE_LIBRARIES (target_os env)) = false ->
     BTreeMap.get l m <> None.
Proof.
  revert fs md. induction libs as [| l r IH]; intros fs md H; cbn [copy_libraries] in H.
  - injection H as <- <-. rewrite app_nil_r. split; [reflexivity | intros _ []].
  - cbn [filter]. destruct (existsb (String.eqb l) _) eqn:Hi; cbn [negb].
    + destruct (IH _ _ H) as [-> Hr]. split; [reflexivity |].
      intros l' [<- | Hl'] Hn; [congruence | apply Hr; assumption].
    + unfold obind in H. destruct (BTreeMap.get l m) as [p |] eqn:Hg; [| discriminate].
      destruct (fs_copy lenv fs p _) as [fs1 |]; [| discriminate].
      destruct (IH _ _ H) as [-> Hr]. split; [rewrite <- app_assoc; reflexivity |].
      intros l' [<- | Hl'] Hn; [congruence | apply Hr; assumption].
Qed.


(** What a successful [link_libpython] did, step by step. *)
Lemma link_libpython_Some {FS} (env : Env FS) (lenv : LinkEnv FS) object_paths em_links
      fs dist resources out_dir host target opt_level info fs' :
  link_libpython env lenv object_paths em_links fs dist resources out_dir host target opt_level
  = Some (info, fs') ->
  let ext := PythonResources.extension_modules resources in
  exists temp fs0 fs1 fs2 fs3 fs4 core_objects fs5 md fs6,
    tempdir_new env fs "libpython" = Some (temp, fs0)
    /\ fs_write lenv fs0 (path_push out_dir "config.c") (as_bytes (make_config_c ext)) = Some fs1
    /\ copy_includes lenv fs1 temp (includes dist) = Some fs2
    /\ cc_compile lenv fs2 (config_build out_dir host target opt_level
                                         (path_push out_dir "config.c") temp)
                  "pyembeddedconfig" = Some fs3
    /\ copy_core_objects lenv fs3 temp (objs_core dist) [] = Some (fs4, core_objects)
    /\ let r := fold_left (extension_inputs object_paths em_links) ext
                          (core_objects, fold_left core_link (links_core dist) (mkNeeded [] [] [])) in
       copy_libraries env lenv fs4 out_dir (libraries dist) (needed_libraries (snd r))
                      ["cargo:rustc-link-lib=static=pyembeddedconfig"] = Some (fs5, md)
       /\ cc_compile lenv fs5 (libpython_build out_dir host target opt_level (fst r)) "pythonXY"
          = Some fs6
       /\ info = mkLibpythonInfo (path_push out_dir "libpythonXY.a")
                   (md ++ map (fun framework => "cargo:rustc-link-lib=framework=" +++ framework)
                              (needed_frameworks (snd r))
                       ++ map (fun lib => "cargo:rustc-link-lib=" +++ lib)
                              (needed_system_libraries (snd r)))
       /\ fs' = tempdir_drop env fs6 temp.
Proof.
  intros H. cbv zeta. unfold link_libpython, obind in H.
  destruct (tempdir_new env fs "libpython") as [[temp fs0] |]; [| discriminate].
  destruct (fs_write lenv fs0 _ _) as [fs1 |] eqn:H1; [| discriminate].
  destruct (copy_includes lenv fs1 temp _) as [fs2 |] eqn:H2; [| discriminate].
  destruct (cc_compile lenv fs2 _ _) as [fs3 |] eqn:H3; [| discriminate].
  destruct (copy_core_objects lenv fs3 temp _ _) as [[fs4 core_objects] |] eqn:H4;
    [| discriminate].
  destruct (fold_left (extension_inputs object_paths em_links) _ _) as [objects nd] eqn:Hr.
  destruct (copy_libraries env lenv fs4 out_dir _ _ _) as [[fs5 md] |] eqn:H5; [| discriminate].
  destruct (cc_compile lenv fs5 _ _) as [fs6 |] eqn:H6; [| discriminate].
  injection H as <- <-.
  exists temp, fs0, fs1, fs2, fs3, fs4, core_objects, fs5, md, fs6.
  rewrite Hr. cbn [fst snd]. repeat split; first [assumption | rewrite <- app_assoc; reflexivity | reflexivity].
Qed.

(** X21: the cargo lines of a successful [link_libpython] are the static
    [pyembeddedconfig] line, then one static line per needed library not
    in [OS_IGNORE_LIBRARIES], then one framework line per needed framework,
    then one line per needed system library, each group in ascending name
    order without duplicates. Frameworks and system libraries come from
    the core's links and the links of the staged extensions that are not
    [builtin_default]; libraries (static or dynamic) only from the latter.
    The library path is [libpythonXY.a] in the output directory. *)
Theorem link_libpython_metadata {FS} (env : Env FS) (lenv : LinkEnv FS) object_paths em_links
        fs dist resources out_dir host target opt_level info fs' :
  link_libpython env lenv object_paths em_links fs dist resources out_dir host target opt_level
  = Some (info, fs') ->
  let from_ext e := exists n em, In (n, em) (PythonResources.extension_modules resources)
                                 /\ builtin_default em = false /\ In e (em_links em) in
  exists libs frameworks system,
    cargo_metadata info
    = ["cargo:rustc-link-lib=static=pyembeddedconfig"]
      ++ map (fun l => "cargo:rustc-link-lib=static=" +++ l)
             (filter (fun l => negb (existsb (String.eqb l) (OS_IGNORE_LIBRARIES (target_os env))))
                     libs)
      ++ map (fun f => "cargo:rustc-link-lib=framework=" +++ f) frameworks
      ++ map (fun l => "cargo:rustc-link-lib=" +++ l) system
    /\ StronglySorted str_lt libs /\ StronglySorted str_lt frameworks
    /\ StronglySorted str_lt system
    /\ (forall x, In x frameworks
                  <-> exists e, (In e (links_core dist) \/ from_ext e)
                                /\ Link.framework e = true /\ Link.name e = x)
    /\ (forall x, In x system
                  <-> exists e, (In e (links_core dist) \/ from_ext e)
                                /\ Link.framework e = false /\ Link.system e = true
                                /\ Link.name e = x)
    /\ (forall x, In x libs
                  <-> exists e, from_ext e /\ Link.framework e = false /\ Link.system e = false
                                /\ (Link.static_path e <> None \/ Link.dynamic_path e <> None)
                                /\ Link.name e = x)
    /\ libpython_path info = path_push out_dir "libpythonXY.a".
Proof.
  intros H from_ext.
  destruct (link_libpython_Some env lenv object_paths em_links fs dist resources out_dir host
              target opt_level info fs' H)
    as (temp & fs0 & fs1 & fs2 & fs3 & fs4 & core_objects & fs5 & md & fs6 &
        _ & _ & _ & _ & _ & H5 & _ & -> & _).
  rewrite fold_extension_inputs in H5 |- *. cbn [fst snd] in H5 |- *.
  set (L := List.concat (map (fun '(_, em) => if builtin_default em then [] else em_links em)
                             (PythonResources.extension_modules resources))) in H5 |- *.
  set (nd0 := fold_left core_link (links_core dist) (mkNeeded [] [] [])) in H5 |- *.
  destruct (copy_libraries_Some _ _ _ _ _ _ _ _ _ H5) as [-> _].
  exists (needed_libraries (fold_left extension_link L nd0)),
         (needed_frameworks (fold_left extension_link L nd0)),
         (needed_system_libraries (fold_left extension_link L nd0)).
  assert (HL : forall e, In e L <-> from_ext e) by (intros e; apply in_ext_links).
  split; [cbn [cargo_metadata]; rewrite <- !app_assoc; reflexivity |].
  split; [| split; [| split]].
  - apply (fold_needed_sorted _ _ _ _ extension_link_libraries).
    apply (fold_needed_sorted core_link needed_libraries (fun _ => false) Link.name core_link_libraries). constructor.
  - apply (fold_needed_sorted _ _ _ _ extension_link_frameworks).
    apply (fold_needed_sorted _ _ _ _ core_link_frameworks). constructor.
  - apply (fold_needed_sorted _ _ _ _ extension_link_system).
    apply (fold_needed_sorted _ _ _ _ core_link_system). constructor.
  - split; [| split; [| split]].
    + intros x. rewrite (fold_needed_In _ _ _ _ extension_link_frameworks).
      unfold nd0. rewrite (fold_needed_In _ _ _ _ core_link_frameworks). cbn [needed_frameworks].
      split.
      * intros [[[] | (e & He & Hf & Hn)] | (e & He & Hf & Hn)]; exists e;
          (split; [| auto]); [left; exact He | right; apply HL, He].
      * intros (e & [He | He] & Hf & Hn); [left; right | right]; exists e;
          (split; [| auto]); [exact He | apply HL, He].
    + intros x. rewrite (fold_needed_In _ _ _ _ extension_link_system).
      unfold nd0. rewrite (fold_needed_In _ _ _ _ core_link_system). cbn [needed_system_libraries].
      split.
      * intros [[[] | (e & He & Hs & Hn)] | (e & He & Hs & Hn)];
          apply andb_true_iff in Hs as [Hf Hs]; apply negb_true_iff in Hf; exists e;
          (split; [| auto]); [left; exact He | right; apply HL, He].
      * intros (e & [He | He] & Hf & Hs & Hn); [left; right | right]; exists e;
          rewrite Hf, Hs; (split; [| auto]); [exact He | apply HL, He].
    + intros x. rewrite (fold_needed_In _ _ _ _ extension_link_libraries).
      unfold nd0. rewrite (fold_needed_In core_link needed_libraries (fun _ => false) Link.name core_link_libraries). cbn [needed_libraries].
      split.
      * intros [[[] | (e & _ & Hfalse & _)] | (e & He & Hl & Hn)]; [discriminate |].
        apply andb_true_iff in Hl as [Hl Hp]. apply andb_true_iff in Hl as [Hf Hs].
        apply negb_true_iff in Hf, Hs. exists e. repeat split; try assumption.
        -- apply HL, He.
        -- apply orb_true_iff in Hp as [Hp | Hp]; [left | right];
             destruct (Link.static_path e), (Link.dynamic_path e); cbn in Hp;
             try discriminate; congruence.
      * intros (e & He & Hf & Hs & Hp & Hn). right. exists e. split; [apply HL, He |].
        rewrite Hf, Hs. split; [| exact Hn]. cbn [negb andb].
        destruct Hp as [Hp | Hp]; [destruct (Link.static_path e) | destruct (Link.dynamic_path e)];
          try congruence; cbn; [reflexivity | apply orb_true_r].
    + reflexivity.
Qed.

Lemma link_libpython_metadata_witness :
  exists info fs',
    link_libpython (test_env 0) test_link_env test_object_paths test_em_links tt
      (test_link_dist [("z", ["lib"; "libz.a"])]) test_resources ["out"] "host" "target" "0"
    = Some (info, fs')
    /\ cargo_metadata info = ["cargo:rustc-link-lib=static=pyembeddedconfig";
                              "cargo:rustc-link-lib=static=z";
                              "cargo:rustc-link-lib=framework=CoreFoundation";
                              "cargo:rustc-link-lib=pthread"]
    /\ libpython_path info = ["out"; "libpythonXY.a"].
Proof.
  do 2 eexists. split; [vm_compute; reflexivity |]. split; [vm_compute; reflexivity |].
  destruct (link_libpython_metadata (test_env 0) test_link_env test_object_paths test_em_links tt
              (test_link_dist [("z", ["lib"; "libz.a"])]) test_resources ["out"] "host" "target" "0"
              _ _ eq_refl) as (libs & fws & sys & _ & _ & _ & _ & _ & _ & _ & Hpath).
  etransitivity; [exact Hpath | reflexivity].
Defined.

(** X22: [link_libpython] panics when a staged extension that is not
    [builtin_default] links a static or dynamic library (not a framework,
    not a system library) that is not in [OS_IGNORE_LIBRARIES] and that
    the distribution's [libraries] map does not have. *)
Theorem link_libpython_missing_library {FS} (env : Env FS) (lenv : LinkEnv FS) object_paths
        em_links fs dist resources out_dir host target opt_level :
  (exists n em e, In (n, em) (PythonResources.extension_modules resources)
                  /\ builtin_default em = false /\ In e (em_links em)
                  /\ Link.framework e = false /\ Link.system e = false
                  /\ (Link.static_path e <> None \/ Link.dynamic_path e <> None)
                  /\ ~ In (Link.name e) (OS_IGNORE_LIBRARIES (target_os env))
                  /\ BTreeMap.get (Link.name e) (libraries dist) = None) ->
  link_libpython env lenv object_paths em_links fs dist resources out_dir host target opt_level
  = None.
Proof.
  intros (n & em & e & Hin & Hb & He & Hf & Hs & Hp & Hni & Hg).
  destruct (link_libpython env lenv object_paths em_links fs dist resources out_dir host target
              opt_level) as [[info fs'] |] eqn:H; [exfalso | reflexivity].
  destruct (link_libpython_Some env lenv object_paths em_links fs dist resources out_dir host
              target opt_level info fs' H)
    as (temp & fs0 & fs1 & fs2 & fs3 & fs4 & core_objects & fs5 & md & fs6 &
        _ & _ & _ & _ & _ & H5 & _).
  rewrite fold_extension_inputs in H5. cbn [snd] in H5.
  destruct (copy_libraries_Some _ _ _ _ _ _ _ _ _ H5) as [_ Hall].
  apply (Hall (Link.name e)); [| | exact Hg].
  - apply (fold_needed_In _ _ _ _ extension_link_libraries). right. exists e. split.
    + apply in_ext_links. exists n, em. auto.
    + rewrite Hf, Hs. split; [| reflexivity]. cbn [negb andb].
      destruct Hp as [Hp | Hp]; [destruct (Link.static_path e) | destruct (Link.dynamic_path e)];
        try congruence; cbn; [reflexivity | apply orb_true_r].
  - destruct (existsb _ _) eqn:Hx; [| reflexivity]. exfalso. apply Hni.
    apply existsb_exists in Hx as (y & Hy & Hxy). apply String.eqb_eq in Hxy. subst y. exact Hy.
Qed.

Lemma link_libpython_missing_library_witness :
  link_libpython (test_env 0) test_link_env test_object_paths test_em_links tt
    (test_link_dist []) test_resources ["out"] "host" "target" "0" = None.
Proof.
  apply link_libpython_missing_library.
  exists "zlib", (ext "zlib" false true),
         (Link.mkLibraryDepends "z" (Some ["lib"; "libz.a"]) None false false).
  repeat split; cbn.
  - right. left. reflexivity.
  - left. reflexivity.
  - left. discriminate.
  - intros [E | [E | []]]; discriminate.
Defined.



(** ** Facts about [Path::ancestors] and the config lookup *)

Lemma path_parent_snoc (q : PathBuf) (x : string) :
  path_parent (q ++ [x]) = if match q with [] => String.eqb x "/" | _ => false end
                           then None else Some q.
Proof.
  destruct q as [| y q]; [reflexivity |].
  unfold path_parent. cbn [app].
  destruct (q ++ [x]) as [| z r] eqn:E; [destruct q; discriminate |].
  destruct r as [| w r].
  - destruct q as [| u q]; [| destruct q; discriminate]. cbn in E. injection E as <-.
    reflexivity.
  - rewrite <- E. cbn [removelast]. rewrite E. rewrite <- E, removelast_last. reflexivity.
Qed.

Lemma firstn_snoc_le (q : PathBuf) (x : string) (k : nat) :
  (k <= List.length q)%nat -> firstn k (q ++ [x]) = firstn k q.
Proof.
  intros Hk. rewrite firstn_app.
  replace (k - List.length q)%nat with 0%nat by lia. apply app_nil_r.
Qed.

Lemma prefixes_snoc (q : PathBuf) (x : string) :
  prefixes (q ++ [x]) = (q ++ [x]) :: (if match q with [] => String.eqb x "/" | _ => false end
                                        then [] else prefixes q).
Proof.
  unfold prefixes. rewrite length_app. cbn [List.length]. rewrite Nat.add_1_r.
  assert (Hm : ancestor_min (q ++ [x])
               = match q with [] => ancestor_min [x] | _ => ancestor_min q end)
    by (destruct q; reflexivity).
  destruct q as [| y q'] eqn:Hq.
  - cbn. destruct (String.eqb x "/"); reflexivity.
  - rewrite <- Hq in *. rewrite Hm.
    assert (Hle : (ancestor_min q <= 1)%nat)
      by (rewrite Hq; cbn; destruct (String.eqb y "/"); lia).
    assert (Hlen : (1 <= List.length q)%nat) by (rewrite Hq; cbn; lia).
    replace (S (S (List.length q)) - ancestor_min q)%nat
      with (S (S (List.length q) - ancestor_min q)) by lia.
    rewrite seq_S, rev_app_distr. cbn [rev app map].
    replace (ancestor_min q + (S (List.length q) - ancestor_min q))%nat
      with (S (List.length q)) by lia.
    rewrite firstn_all2 by (rewrite length_app; cbn; lia).
    f_equal. apply map_ext_in. intros k Hk.
    apply in_rev, in_seq in Hk. apply firstn_snoc_le. lia.
Qed.

Lemma ancestors_prefixes (p : PathBuf) : ancestors p = prefixes p.
Proof.
  induction p as [| x q IH] using rev_ind; [reflexivity |].
  rewrite prefixes_snoc. unfold ancestors in *. rewrite length_app. cbn [List.length].
  rewrite Nat.add_1_r. cbn [ancestors_from]. rewrite path_parent_snoc.
  destruct (match q with [] => String.eqb x "/" | _ => false end); [reflexivity |].
  rewrite IH. reflexivity.
Qed.

Lemma first_existing_spec (path_exists : PathBuf -> bool) (dirs : list PathBuf) (b : string) :
  (first_existing path_exists dirs b = None
   <-> forall d, In d dirs -> path_exists (path_push d b) = false)
  /\ forall c, first_existing path_exists dirs b = Some c
     <-> exists pre d post, dirs = pre ++ d :: post /\ c = path_push d b
                            /\ path_exists c = true
                            /\ forall d', In d' pre -> path_exists (path_push d' b) = false.
Proof.
  induction dirs as [| d r [IHn IHs]]; cbn [first_existing].
  - split; [split; [intros _ _ [] | reflexivity] |].
    intros c. split; [discriminate |]. intros ([| ? ?] & ? & ? & E & _); discriminate.
  - destruct (path_exists (path_push d b)) eqn:Hd.
    + split.
      * split; [discriminate |]. intros H. rewrite (H d (or_introl eq_refl)) in Hd. discriminate.
      * intros c. split.
        -- intros E. injection E as <-. exists [], d, r. repeat split; auto. intros _ [].
        -- intros ([| d0 pre] & d' & post & E & -> & He & Hpre).
           ++ injection E as -> ->. reflexivity.
           ++ injection E as -> ->. rewrite (Hpre d0 (or_introl eq_refl)) in Hd. discriminate.
    + split.
      * rewrite IHn. split.
        -- intros H d' [<- | Hd']; [exact Hd | apply H, Hd'].
        -- intros H d' Hd'. apply H. right. exact Hd'.
      * intros c. rewrite IHs. split.
        -- intros (pre & d' & post & -> & -> & He & Hpre). exists (d :: pre), d', post.
           repeat split; auto. intros d'' [<- | Hd'']; [exact Hd | apply Hpre, Hd''].
        -- intros ([| d0 pre] & d' & post & E & -> & He & Hpre).
           ++ injection E as -> ->. congruence.
           ++ injection E as -> ->. exists pre, d', post. repeat split; auto.
              intros d'' Hd''. apply Hpre. right. exact Hd''.
Qed.

(** X24: [find_pyoxidizer_config_file] looks for [pyoxidizer.<target>.toml]
    in the start directory and then in each parent, the ancestors being
    the prefixes of the start path from the longest down to the empty
    path (to the root for an absolute path); it returns [None] exactly
    when none of them holds the file, and otherwise the candidate in the
    nearest ancestor that holds it. *)
Theorem find_pyoxidizer_config_file_nearest (path_exists : PathBuf -> bool)
        (start_dir : PathBuf) (target : string) :
  let basename := "pyoxidizer." +++ target +++ ".toml" in
  ancestors start_dir = prefixes start_dir
  /\ (find_pyoxidizer_config_file path_exists start_dir target = None
      <-> forall d, In d (ancestors start_dir) -> path_exists (path_push d basename) = false)
  /\ forall c, find_pyoxidizer_config_file path_exists start_dir target = Some c
     <-> exists pre d post, ancestors start_dir = pre ++ d :: post
                            /\ c = path_push d basename /\ path_exists c = true
                            /\ forall d', In d' pre -> path_exists (path_push d' basename) = false.
Proof.
  intros basename. split; [apply ancestors_prefixes |].
  unfold find_pyoxidizer_config_file. apply first_existing_spec.
Qed.
